(** * Dynamic Ansible inventory for Multipass VMs

    A shallow embedding of [ansible/inventories/multipass/inventory.py] and
    the properties its specification states about it.

    Python values are modelled by the type [json] (the values [json.loads]
    produces and [json.dumps] prints); a Python [str] is a [string], one
    [ascii] per character; a [dict] is an association list in insertion
    order, as iteration and printing follow that order.  Exceptions are
    explicit: every function that can raise returns a [result]. *)

From Stdlib Require Import String Ascii List Bool Arith Lia.
Import ListNotations.
Open Scope string_scope.

(** ** Exceptions and the error monad *)

Inductive exn : Set :=
| CalledProcessError   (* subprocess: non-zero exit under check=True *)
| JSONDecodeError      (* json.loads: malformed text *)
| FileNotFoundError    (* subprocess: executable not found *)
| PermissionError      (* subprocess: executable found but cannot be run *)
| AttributeError       (* [.get] or [.startswith] on a value without it *)
| TypeError            (* iteration over, or item assignment on, a wrong value *)
| KeyError.            (* [d[k]] on a missing key *)

Definition exn_eq_dec (a b : exn) : {a = b} + {a <> b}.
Proof. decide equality. Defined.

Inductive result (A : Type) : Type :=
| Ok (a : A)
| Raise (e : exn).
Arguments Ok {A} a.
Arguments Raise {A} e.

Definition bind {A B : Type} (m : result A) (k : A -> result B) : result B :=
  match m with
  | Ok a => k a
  | Raise e => Raise e
  end.

Notation "x <- m ;; k" := (bind m (fun x => k))
  (at level 61, m at next level, right associativity).

(** [try: body except classes: handler]. *)
Definition try_except {A : Type} (body : result A) (classes : list exn)
    (handler : result A) : result A :=
  match body with
  | Ok a => Ok a
  | Raise e => if in_dec exn_eq_dec e classes then handler else Raise e
  end.

(** ** Python values *)

#[warnings="-register-all"]
Inductive json : Type :=
| JNull                                   (* None *)
| JBool (b : bool)
| JNum (repr : string)                    (* an int or float, kept as the text Python prints for it *)
| JStr (s : string)
| JArr (items : list json)
| JObj (fields : list (string * json)).

(** A dict, its items in insertion order; the keys of a dict are distinct,
    and a lookup takes the first item under the key. *)
Definition dict : Type := list (string * json).

Fixpoint dict_get (key : string) (d : dict) : option json :=
  match d with
  | [] => None
  | (k, v) :: rest => if String.eqb k key then Some v else dict_get key rest
  end.

(** [d[key] = v] on a dict: an existing key keeps its position. *)
Fixpoint dict_set (key : string) (v : json) (d : dict) : dict :=
  match d with
  | [] => [(key, v)]
  | (k, x) :: rest =>
      if String.eqb k key then (k, v) :: rest else (k, x) :: dict_set key v rest
  end.

(** [obj.get(key, default)]. *)
Definition py_get (obj : json) (key : string) (default : json) : result json :=
  match obj with
  | JObj d => Ok (match dict_get key d with Some v => v | None => default end)
  | _ => Raise AttributeError
  end.

(** [obj[key]]. *)
Definition py_getitem (obj : json) (key : string) : result json :=
  match obj with
  | JObj d => match dict_get key d with Some v => Ok v | None => Raise KeyError end
  | _ => Raise TypeError
  end.

(** [obj[key] = v], returning the object after the assignment. *)
Definition py_setitem (obj : json) (key : string) (v : json) : result json :=
  match obj with
  | JObj d => Ok (JObj (dict_set key v d))
  | _ => Raise TypeError
  end.

(** The elements a [for] loop over the value visits, in order. *)
Definition py_iter (v : json) : result (list json) :=
  match v with
  | JArr items => Ok items
  | JObj d => Ok (map (fun kv => JStr (fst kv)) d)
  | JStr s => Ok (map (fun c => JStr (String c EmptyString)) (list_ascii_of_string s))
  | _ => Raise TypeError
  end.

(** [v == s] for a str [s]. *)
Definition eq_str (v : json) (s : string) : bool :=
  match v with
  | JStr t => String.eqb t s
  | _ => false
  end.

(** Truth value of [v] in a condition. *)
Definition truthy (v : json) : bool :=
  match v with
  | JNull => false
  | JBool b => b
  | JNum r => negb (String.eqb r "0" || String.eqb r "0.0" || String.eqb r "-0.0")
  | JStr s => negb (String.eqb s "")
  | JArr items => match items with [] => false | _ :: _ => true end
  | JObj d => match d with [] => false | _ :: _ => true end
  end.

(** [s.startswith(p)]. *)
Fixpoint startswith (s p : string) {struct p} : bool :=
  match p with
  | EmptyString => true
  | String c p' =>
      match s with
      | EmptyString => false
      | String c' s' => Ascii.eqb c' c && startswith s' p'
      end
  end.

(** [v.startswith(prefixes)] with a tuple of prefixes. *)
Definition py_startswith (v : json) (prefixes : list string) : result bool :=
  match v with
  | JStr s => Ok (existsb (startswith s) prefixes)
  | _ => Raise AttributeError
  end.

(** ** os.path (POSIX) *)

Definition is_sep (c : ascii) : bool := Ascii.eqb c "/"%char.

Fixpoint drop_while {A : Type} (p : A -> bool) (l : list A) : list A :=
  match l with
  | [] => []
  | x :: rest => if p x then drop_while p rest else l
  end.

(** [os.path.dirname]: the part up to the last separator, its trailing
    separators stripped unless it consists of separators only.  [head] is
    kept reversed. *)
Definition dirname (p : string) : string :=
  let head := drop_while (fun c => negb (is_sep c)) (rev (list_ascii_of_string p)) in
  let head := if forallb is_sep head then head else drop_while is_sep head in
  string_of_list_ascii (rev head).

Definition endswith_sep (p : string) : bool :=
  match rev (list_ascii_of_string p) with
  | c :: _ => is_sep c
  | [] => false
  end.

(** [os.path.join(a, b)]. *)
Definition path_join (a b : string) : string :=
  if startswith b "/" then b
  else if String.eqb a "" || endswith_sep a then a ++ b
  else a ++ "/" ++ b.

(** ** json.dumps(obj, indent=2) *)

Definition dquote : ascii := "034"%char.
Definition newline : ascii := "010"%char.

Definition hex_digit (n : nat) : ascii :=
  nth n (list_ascii_of_string "0123456789abcdef") "0"%char.

Definition escape_char (c : ascii) : string :=
  let n := nat_of_ascii c in
  if Nat.eqb n 34 then String "\"%char (String dquote "")
  else if Nat.eqb n 92 then "\\"
  else if Nat.eqb n 10 then "\n"
  else if Nat.eqb n 13 then "\r"
  else if Nat.eqb n 9 then "\t"
  else if Nat.eqb n 8 then "\b"
  else if Nat.eqb n 12 then "\f"
  else if Nat.ltb n 32 || Nat.ltb 126 n
       then "\u00" ++ String (hex_digit (n / 16)) (String (hex_digit (n mod 16)) "")
  else String c "".

Definition encode_str (s : string) : string :=
  String dquote
    (String.concat "" (map escape_char (list_ascii_of_string s)) ++ String dquote "").

Fixpoint spaces (n : nat) : string :=
  match n with
  | 0 => ""
  | S k => String " " (spaces k)
  end.

Definition newline_indent (level : nat) : string :=
  String newline (spaces (2 * level)).

Definition bracketed (opening closing : string) (level : nat) (chunks : list string) : string :=
  match chunks with
  | [] => opening ++ closing
  | _ :: _ =>
      opening ++ newline_indent (S level)
        ++ String.concat ("," ++ newline_indent (S level)) chunks
        ++ newline_indent level ++ closing
  end.

Fixpoint dumps_at (level : nat) (v : json) : string :=
  match v with
  | JNull => "null"
  | JBool b => if b then "true" else "false"
  | JNum r => r
  | JStr s => encode_str s
  | JArr items =>
      bracketed "[" "]" level (map (dumps_at (S level)) items)
  | JObj d =>
      bracketed "{" "}" level
        (map (fun kv => encode_str (fst kv) ++ ": " ++ dumps_at (S level) (snd kv)) d)
  end.

Definition json_dumps (v : json) : string := dumps_at 0 v.

(** [print(s)]: the text written to standard output. *)
Definition print (s : string) : result string := Ok (s ++ String newline "").

(** ** The script *)

Definition target_name : string := "jterrazz-infra".
Definition excluded_prefixes : list string := ["127."; "172."; "10.42."].
Definition ssh_common_args : string :=
  "-o StrictHostKeyChecking=no -o UserKnownHostsFile=/dev/null".

(** What the script meets outside itself: [os.path.abspath(__file__)] and
    what running [multipass list --format json] with [check=True] does
    (the captured standard output, or the exception raised). *)
Record Env : Type := {
  script_file : string;
  subprocess_run : result string
}.

(** The parsed command line: [args.list] and [args.host] ([None] when the
    option is not given). *)
Record Namespace : Type := {
  args_list : bool;
  args_host : option string
}.

(** The condition [args.host]: the option was given and its value is not
    the empty string. *)
Definition host_given (args : Namespace) : bool :=
  match args_host args with
  | None => truthy JNull
  | Some h => truthy (JStr h)
  end.

(** The key [args.host] where the condition above holds. *)
Definition host_name (args : Namespace) : string :=
  match args_host args with
  | None => ""
  | Some h => h
  end.

Section Script.

(** [json.loads], taken as given. *)
Variable json_loads : string -> result json.

Definition get_multipass_vm_info (env : Env) : result json :=
  try_except
    (stdout <- subprocess_run env ;; json_loads stdout)
    [CalledProcessError; JSONDecodeError; FileNotFoundError]
    (Ok (JObj [("list", JArr [])])).

Definition get_project_root (env : Env) : string :=
  let script_dir := dirname (script_file env) in
  dirname (dirname (dirname script_dir)).

(** First loop of [get_inventory]: the value of [target_vm] after it. *)
Fixpoint find_target_vm (vms : list json) : result json :=
  match vms with
  | [] => Ok JNull
  | vm :: rest =>
      name <- py_get vm "name" JNull ;;
      if eq_str name target_name then Ok vm else find_target_vm rest
  end.

(** Second loop of [get_inventory]: the value of [vm_ip] after it. *)
Fixpoint find_vm_ip (ips : list json) : result json :=
  match ips with
  | [] => Ok JNull
  | ip :: rest =>
      excluded <- py_startswith ip excluded_prefixes ;;
      if negb excluded then Ok ip else find_vm_ip rest
  end.

Definition base_inventory : json :=
  JObj [ ("all", JObj [("children", JArr [JStr "development"])]);
         ("development", JObj [("hosts", JArr [])]);
         ("_meta", JObj [("hostvars", JObj [])]) ].

Definition host_variables (vm_ip : json) (ssh_key_path : string) : json :=
  JObj [ ("ansible_host", vm_ip);
         ("ansible_user", JStr "ubuntu");
         ("ansible_ssh_private_key_file", JStr ssh_key_path);
         ("ansible_ssh_common_args", JStr ssh_common_args) ].

(** The two assignments of the success branch; the nested dicts are
    changed in place, so each change is written back into its parent. *)
Definition add_host (inventory vm_ip : json) (ssh_key_path : string) : result json :=
  development <- py_getitem inventory "development" ;;
  development <- py_setitem development "hosts" (JArr [JStr target_name]) ;;
  inventory <- py_setitem inventory "development" development ;;
  meta <- py_getitem inventory "_meta" ;;
  hostvars <- py_getitem meta "hostvars" ;;
  hostvars <- py_setitem hostvars target_name (host_variables vm_ip ssh_key_path) ;;
  meta <- py_setitem meta "hostvars" hostvars ;;
  py_setitem inventory "_meta" meta.

Definition get_inventory (env : Env) : result json :=
  let project_root := get_project_root env in
  let ssh_key_path := path_join project_root "local-data/ssh/id_rsa" in
  multipass_data <- get_multipass_vm_info env ;;
  vm_list <- py_get multipass_data "list" (JArr []) ;;
  vms <- py_iter vm_list ;;
  target_vm <- find_target_vm vms ;;
  let inventory := base_inventory in
  running <- (if truthy target_vm
              then state <- py_get target_vm "state" JNull ;; Ok (eq_str state "Running")
              else Ok false) ;;
  if running then
    ipv4 <- py_get target_vm "ipv4" (JArr []) ;;
    ips <- py_iter ipv4 ;;
    vm_ip <- find_vm_ip ips ;;
    if truthy vm_ip then add_host inventory vm_ip ssh_key_path
    else Ok inventory
  else Ok inventory.

Definition main (args : Namespace) (env : Env) : result string :=
  inventory <- get_inventory env ;;
  if args_list args then print (json_dumps inventory)
  else if host_given args then
    meta <- py_get inventory "_meta" (JObj []) ;;
    all_hostvars <- py_get meta "hostvars" (JObj []) ;;
    hostvars <- py_get all_hostvars (host_name args) (JObj []) ;;
    print (json_dumps hostvars)
  else print (json_dumps inventory).

End Script.

(** ** Vocabulary of the specification *)

(** The value a mapping holds under a key, if any. *)
Definition field (vm : json) (key : string) : option json :=
  match vm with
  | JObj d => dict_get key d
  | _ => None
  end.

Definition is_record (vm : json) : Prop := exists d, vm = JObj d.

Definition named_target (vm : json) : Prop :=
  field vm "name" = Some (JStr target_name).

Definition is_running (vm : json) : Prop :=
  field vm "state" = Some (JStr "Running").

(** A record the first loop passes over: a mapping whose name is not the
    target's. *)
Definition other_record (vm : json) : Prop :=
  is_record vm /\ ~ named_target vm.

(** A VM record of the data model: a mapping whose [ipv4], where present,
    is a sequence of strings. *)
Definition vm_shaped (vm : json) : Prop :=
  is_record vm
  /\ (field vm "ipv4" = None
      \/ exists ips, field vm "ipv4" = Some (JArr (map JStr ips))).

(** An address the exclusion filter rejects. *)
Definition excluded (ip : string) : Prop :=
  exists p rest, In p excluded_prefixes /\ ip = p ++ rest.

(** The fetch yields a mapping whose [list] is the sequence [vms] (the
    empty sequence when the key is missing). *)
Definition fetches (json_loads : string -> result json) (env : Env)
    (vms : list json) : Prop :=
  exists data, get_multipass_vm_info json_loads env = Ok data
            /\ py_get data "list" (JArr []) = Ok (JArr vms).

(** [doc[k1][k2]] and [doc[k1][k2][k3]] where they exist. *)
Definition at2 (doc : json) (k1 k2 : string) : option json :=
  match field doc k1 with
  | Some v => field v k2
  | None => None
  end.

Definition at3 (doc : json) (k1 k2 k3 : string) : option json :=
  match at2 doc k1 k2 with
  | Some v => field v k3
  | None => None
  end.

Definition keys (doc : json) : list string :=
  match doc with
  | JObj d => map fst d
  | _ => []
  end.

(** The document after the success branch, written out. *)
Definition populated_inventory (vm_ip : json) (ssh_key_path : string) : json :=
  JObj [ ("all", JObj [("children", JArr [JStr "development"])]);
         ("development", JObj [("hosts", JArr [JStr "jterrazz-infra"])]);
         ("_meta", JObj [("hostvars",
             JObj [("jterrazz-infra", host_variables vm_ip ssh_key_path)])]) ].

Definition ssh_key_path (env : Env) : string :=
  path_join (get_project_root env) "local-data/ssh/id_rsa".

Definition quoted (s : string) : string := String dquote (s ++ String dquote "").

Definition lines (l : list string) : string :=
  String.concat (String newline "") l.

(** The text of the empty inventory document. *)
Definition empty_inventory_text : string :=
  lines [ "{";
          "  " ++ quoted "all" ++ ": {";
          "    " ++ quoted "children" ++ ": [";
          "      " ++ quoted "development";
          "    ]";
          "  },";
          "  " ++ quoted "development" ++ ": {";
          "    " ++ quoted "hosts" ++ ": []";
          "  },";
          "  " ++ quoted "_meta" ++ ": {";
          "    " ++ quoted "hostvars" ++ ": {}";
          "  }";
          "}";
          "" ].

Definition list_mode : Namespace := {| args_list := true; args_host := None |}.
Definition no_flags : Namespace := {| args_list := false; args_host := None |}.
Definition host_mode (name : string) : Namespace :=
  {| args_list := false; args_host := Some name |}.
Definition both_flags (name : string) : Namespace :=
  {| args_list := true; args_host := Some name |}.

(** A path component: no separator inside. *)
Definition no_sep (c : string) : Prop :=
  forallb (fun ch => negb (is_sep ch)) (list_ascii_of_string c) = true.

(** The entry [c] of the directory [parent]. *)
Definition child (parent c : string) : string := parent ++ "/" ++ c.

(** A run of separators, as an absolute path begins with. *)
Definition all_sep (top : string) : Prop :=
  forallb is_sep (list_ascii_of_string top) = true.

(** What [_meta.hostvars] holds for a host, the empty mapping when it
    holds nothing. *)
Definition host_submapping (doc : json) (name : string) : json :=
  match at3 doc "_meta" "hostvars" name with
  | Some v => v
  | None => JObj []
  end.

Definition stdout_of (v : json) : result string :=
  Ok (json_dumps v ++ String newline "").

(** ** Sample inputs *)

(** A decoder that knows one text. *)
Definition decode_as (text : string) (v : json) : string -> result json :=
  fun s => if String.eqb s text then Ok v else Raise JSONDecodeError.

Definition repo_script : string :=
  "/home/user/jterrazz-infra/ansible/inventories/multipass/inventory.py".

Definition env_printing (text : string) : Env :=
  {| script_file := repo_script; subprocess_run := Ok text |}.

Definition env_raising (e : exn) : Env :=
  {| script_file := repo_script; subprocess_run := Raise e |}.

Definition vm_record (name state : string) (ips : list string) : json :=
  JObj [("name", JStr name); ("state", JStr state); ("ipv4", JArr (map JStr ips))].

Definition listing (vms : list json) : json := JObj [("list", JArr vms)].

Definition spec_addresses : list string :=
  ["127.0.0.1"; "172.17.0.1"; "10.42.0.5"; "192.168.64.10"].

(** The text printed for the host found in the fixture listing. *)
Definition found_host_text : string :=
  lines [ "{";
          "  " ++ quoted "ansible_host" ++ ": " ++ quoted "192.168.64.10" ++ ",";
          "  " ++ quoted "ansible_user" ++ ": " ++ quoted "ubuntu" ++ ",";
          "  " ++ quoted "ansible_ssh_private_key_file" ++ ": "
               ++ quoted "/home/user/jterrazz-infra/local-data/ssh/id_rsa" ++ ",";
          "  " ++ quoted "ansible_ssh_common_args" ++ ": "
               ++ quoted "-o StrictHostKeyChecking=no -o UserKnownHostsFile=/dev/null";
          "}";
          "" ].

(** ** Parts of [get_inventory] *)

(** What [get_inventory] does after its first loop, as a function of the
    value of [target_vm]. *)
Definition resolve_target (key_path : string) (target_vm : json) : result json :=
  running <- (if truthy target_vm
              then state <- py_get target_vm "state" JNull ;; Ok (eq_str state "Running")
              else Ok false) ;;
  if running then
    ipv4 <- py_get target_vm "ipv4" (JArr []) ;;
    ips <- py_iter ipv4 ;;
    vm_ip <- find_vm_ip ips ;;
    if truthy vm_ip then add_host base_inventory vm_ip key_path
    else Ok base_inventory
  else Ok base_inventory.

(** What it does for a running target, as a function of the value of
    [target_vm.get("ipv4", [])]. *)
Definition choose_address (key_path : string) (ipv4 : json) : result json :=
  ips <- py_iter ipv4 ;;
  vm_ip <- find_vm_ip ips ;;
  if truthy vm_ip then Ok (populated_inventory vm_ip key_path)
  else Ok base_inventory.

(** The value a running target holds under [ipv4], the empty list when it
    holds none. *)
Definition ipv4_of (vm : json) : json :=
  match field vm "ipv4" with
  | Some v => v
  | None => JArr []
  end.

(** Values a [for] loop cannot run over. *)
Definition not_iterable (v : json) : Prop :=
  v = JNull \/ (exists b, v = JBool b) \/ (exists r, v = JNum r).

Definition is_str (v : json) : Prop := exists s, v = JStr s.

(** The three failures of the fetch the handler names. *)
Definition fetch_failed (json_loads : string -> result json) (env : Env) : Prop :=
  subprocess_run env = Raise FileNotFoundError
  \/ subprocess_run env = Raise CalledProcessError
  \/ (exists stdout, subprocess_run env = Ok stdout
                   /\ json_loads stdout = Raise JSONDecodeError).

(** ** Printed text *)

(** A character [json.dumps] writes as it is: printable ASCII other than
    the double quote and the backslash. *)
Definition plain_char (c : ascii) : Prop :=
  32 <= nat_of_ascii c /\ nat_of_ascii c <= 126
  /\ nat_of_ascii c <> 34 /\ nat_of_ascii c <> 92.

Definition plain (s : string) : Prop := Forall plain_char (list_ascii_of_string s).

Definition is_plain (s : string) : bool :=
  forallb (fun c => Nat.leb 32 (nat_of_ascii c) && Nat.leb (nat_of_ascii c) 126
                    && negb (Nat.eqb (nat_of_ascii c) 34)
                    && negb (Nat.eqb (nat_of_ascii c) 92))
          (list_ascii_of_string s).

(** The text of the variables of a host found at [ip], the key being at
    [path]. *)
Definition host_text (ip path : string) : string :=
  lines [ "{";
          "  " ++ quoted "ansible_host" ++ ": " ++ quoted ip ++ ",";
          "  " ++ quoted "ansible_user" ++ ": " ++ quoted "ubuntu" ++ ",";
          "  " ++ quoted "ansible_ssh_private_key_file" ++ ": " ++ quoted path ++ ",";
          "  " ++ quoted "ansible_ssh_common_args" ++ ": "
               ++ quoted "-o StrictHostKeyChecking=no -o UserKnownHostsFile=/dev/null";
          "}";
          "" ].

(** The text of the whole document for that host. *)
Definition inventory_text (ip path : string) : string :=
  lines [ "{";
          "  " ++ quoted "all" ++ ": {";
          "    " ++ quoted "children" ++ ": [";
          "      " ++ quoted "development";
          "    ]";
          "  },";
          "  " ++ quoted "development" ++ ": {";
          "    " ++ quoted "hosts" ++ ": [";
          "      " ++ quoted "jterrazz-infra";
          "    ]";
          "  },";
          "  " ++ quoted "_meta" ++ ": {";
          "    " ++ quoted "hostvars" ++ ": {";
          "      " ++ quoted "jterrazz-infra" ++ ": {";
          "        " ++ quoted "ansible_host" ++ ": " ++ quoted ip ++ ",";
          "        " ++ quoted "ansible_user" ++ ": " ++ quoted "ubuntu" ++ ",";
          "        " ++ quoted "ansible_ssh_private_key_file" ++ ": " ++ quoted path ++ ",";
          "        " ++ quoted "ansible_ssh_common_args" ++ ": "
                     ++ quoted "-o StrictHostKeyChecking=no -o UserKnownHostsFile=/dev/null";
          "      }";
          "    }";
          "  }";
          "}";
          "" ].

(** * Verification *)

(** ** Strings and paths *)

Lemma startswith_spec (s p : string) :
  startswith s p = true <-> exists rest, s = p ++ rest.
Proof.
  revert s; induction p as [|c p IH]; intros s; simpl.
  - split; [intros _; now exists s | reflexivity].
  - destruct s as [|c' s]; simpl.
    + split; [discriminate | intros [r Hr]; discriminate].
    + rewrite andb_true_iff, Ascii.eqb_eq, IH. split.
      * intros [-> [r ->]]. now exists r.
      * intros [r Hr]. injection Hr as -> ->. split; [reflexivity | now exists r].
Qed.

Lemma excluded_spec (ip : string) :
  existsb (startswith ip) excluded_prefixes = true <-> excluded ip.
Proof.
  rewrite existsb_exists. unfold excluded. split.
  - intros [p [Hin Hp]]. apply startswith_spec in Hp as [r Hr]. now exists p, r.
  - intros [p [r [Hin Hr]]]. exists p. split; [exact Hin|].
    apply startswith_spec. now exists r.
Qed.

Lemma not_excluded_spec (ip : string) :
  existsb (startswith ip) excluded_prefixes = false <-> ~ excluded ip.
Proof.
  rewrite <- excluded_spec. destruct (existsb _ _); split; congruence.
Qed.

Lemma list_ascii_of_string_app (a b : string) :
  list_ascii_of_string (a ++ b)
  = (list_ascii_of_string a ++ list_ascii_of_string b)%list.
Proof.
  induction a as [|ch a IH]; simpl; [reflexivity | now rewrite IH].
Qed.

Lemma forallb_rev {A : Type} (p : A -> bool) (l : list A) :
  forallb p (rev l) = forallb p l.
Proof.
  induction l as [|x l IH]; simpl; [reflexivity|].
  rewrite forallb_app, IH. simpl. rewrite andb_true_r. apply andb_comm.
Qed.

Lemma drop_while_app {A : Type} (p : A -> bool) (l r : list A) :
  forallb p l = true -> drop_while p (l ++ r)%list = drop_while p r.
Proof.
  induction l as [|x l IH]; simpl; [reflexivity|].
  intros H. apply andb_true_iff in H as [Hx Hl]. rewrite Hx. now apply IH.
Qed.

Lemma rev_child (parent c : string) :
  rev (list_ascii_of_string (child parent c))
  = (rev (list_ascii_of_string c)
       ++ "/"%char :: rev (list_ascii_of_string parent))%list.
Proof.
  unfold child. rewrite !list_ascii_of_string_app. simpl.
  rewrite rev_app_distr. simpl. now rewrite <- app_assoc.
Qed.

Lemma eqb_empty (s : string) :
  String.eqb s "" = match s with EmptyString => true | String _ _ => false end.
Proof. now destruct s. Qed.

Lemma drop_to_sep (l : list ascii) :
  drop_while (fun c => negb (is_sep c)) ("/"%char :: l) = "/"%char :: l.
Proof. reflexivity. Qed.

Lemma dirname_child (parent c : string) :
  endswith_sep parent = false -> no_sep c ->
  dirname (child parent c) = if String.eqb parent "" then "/" else parent.
Proof.
  intros Hend Hc. unfold dirname. cbv zeta. rewrite rev_child.
  rewrite drop_while_app by (now rewrite forallb_rev).
  rewrite drop_to_sep, eqb_empty.
  destruct parent as [|a parent]; [reflexivity|].
  unfold endswith_sep in Hend.
  destruct (rev (list_ascii_of_string (String a parent))) as [|ch t] eqn:E.
  - apply (f_equal (@List.length ascii)) in E. rewrite length_rev in E. discriminate.
  - cbn [forallb drop_while]. rewrite Hend. change (is_sep "/") with true.
    cbn [andb]. rewrite <- E, rev_involutive.
    apply string_of_list_ascii_of_string.
Qed.

Lemma endswith_sep_child (parent c : string) :
  no_sep c -> c <> "" -> endswith_sep (child parent c) = false.
Proof.
  intros Hc Hne. unfold endswith_sep. rewrite rev_child.
  unfold no_sep in Hc. rewrite <- forallb_rev in Hc.
  destruct (rev (list_ascii_of_string c)) as [|ch t] eqn:E.
  - apply (f_equal (@List.length ascii)) in E. rewrite length_rev in E.
    destruct c; [congruence | discriminate].
  - simpl in Hc |- *. apply andb_true_iff in Hc as [Hch _].
    now apply negb_true_iff in Hch.
Qed.

Lemma child_not_empty (parent c : string) : String.eqb (child parent c) "" = false.
Proof.
  rewrite eqb_empty. unfold child. now destruct parent.
Qed.

(** Four levels up from the script: the directory that holds the three
    nested directories the script lives in. *)
Lemma get_project_root_layout (env : Env) (root c1 c2 c3 f : string) :
  endswith_sep root = false ->
  no_sep c1 -> no_sep c2 -> no_sep c3 -> no_sep f ->
  c1 <> "" -> c2 <> "" -> c3 <> "" ->
  script_file env = child (child (child (child root c1) c2) c3) f ->
  get_project_root env = if String.eqb root "" then "/" else root.
Proof.
  intros Hroot H1 H2 H3 Hf N1 N2 N3 Hfile.
  unfold get_project_root. rewrite Hfile.
  rewrite dirname_child by (auto using endswith_sep_child).
  rewrite child_not_empty.
  rewrite dirname_child by (auto using endswith_sep_child).
  rewrite child_not_empty.
  rewrite dirname_child by (auto using endswith_sep_child).
  rewrite child_not_empty.
  now apply dirname_child.
Qed.

Lemma ssh_key_path_layout (env : Env) (root c1 c2 c3 f : string) :
  endswith_sep root = false ->
  no_sep c1 -> no_sep c2 -> no_sep c3 -> no_sep f ->
  c1 <> "" -> c2 <> "" -> c3 <> "" ->
  script_file env = child (child (child (child root c1) c2) c3) f ->
  ssh_key_path env = root ++ "/local-data/ssh/id_rsa".
Proof.
  intros Hroot H1 H2 H3 Hf N1 N2 N3 Hfile.
  unfold ssh_key_path.
  rewrite (get_project_root_layout env root c1 c2 c3 f) by assumption.
  rewrite eqb_empty. destruct root as [|a root]; [reflexivity|].
  unfold path_join. cbn [startswith]. change (Ascii.eqb "l" "/") with false.
  cbn [andb]. rewrite Hroot. reflexivity.
Qed.

(** ** The two loops *)

Lemma eq_str_true (v : json) (s : string) : eq_str v s = true <-> v = JStr s.
Proof.
  destruct v; simpl; try (split; [discriminate | intros H; discriminate]).
  rewrite String.eqb_eq. split; [now intros -> | now intros [= ->]].
Qed.

Lemma py_get_record (vm : json) (key : string) (default : json) :
  is_record vm ->
  py_get vm key default
  = Ok (match field vm key with Some v => v | None => default end).
Proof. now intros [d ->]. Qed.

Lemma name_test (vm : json) :
  is_record vm ->
  exists name, py_get vm "name" JNull = Ok name
            /\ (eq_str name target_name = true <-> named_target vm).
Proof.
  intros Hrec. rewrite (py_get_record _ _ _ Hrec).
  eexists; split; [reflexivity|]. rewrite eq_str_true. unfold named_target.
  destruct (field vm "name") as [v|]; split; congruence.
Qed.

Lemma named_is_record (vm : json) : named_target vm -> is_record vm.
Proof.
  unfold named_target, is_record. destruct vm; simpl; try discriminate.
  intros _. now eexists.
Qed.

Lemma named_truthy (vm : json) : named_target vm -> truthy vm = true.
Proof.
  unfold named_target. destruct vm as [| | | | |d]; simpl; try discriminate.
  now destruct d.
Qed.

Lemma find_target_vm_hit (vm : json) (rest : list json) :
  named_target vm -> find_target_vm (vm :: rest) = Ok vm.
Proof.
  intros Hn. destruct (name_test vm (named_is_record vm Hn)) as [name [Hget Htest]].
  simpl. rewrite Hget. simpl. apply Htest in Hn. now rewrite Hn.
Qed.

Lemma find_target_vm_skip (pre rest : list json) :
  Forall other_record pre ->
  find_target_vm (pre ++ rest)%list = find_target_vm rest.
Proof.
  induction 1 as [|vm pre [Hrec Hnot] _ IH]; [reflexivity|].
  destruct (name_test vm Hrec) as [name [Hget Htest]].
  simpl. rewrite Hget. simpl.
  destruct (eq_str name target_name); [|exact IH].
  exfalso. now apply Hnot, Htest.
Qed.

Lemma find_target_vm_none (vms : list json) :
  Forall other_record vms -> find_target_vm vms = Ok JNull.
Proof.
  intros H. rewrite <- (app_nil_r vms). now rewrite find_target_vm_skip.
Qed.

Lemma find_target_vm_cases (vms : list json) (v : json) :
  find_target_vm vms = Ok v -> v = JNull \/ named_target v.
Proof.
  induction vms as [|vm vms IH]; simpl.
  - intros [= <-]. now left.
  - destruct vm as [| | | | |d]; simpl; try discriminate.
    destruct (eq_str _ target_name) eqn:E; [|exact IH].
    intros [= <-]. right. apply eq_str_true in E. unfold named_target. simpl.
    destruct (dict_get "name" d); [now subst | discriminate].
Qed.

Lemma find_target_vm_total (vms : list json) :
  Forall is_record vms ->
  exists v, find_target_vm vms = Ok v
         /\ (v = JNull \/ (named_target v /\ In v vms)).
Proof.
  induction 1 as [|vm vms Hrec _ IH].
  - exists JNull. split; [reflexivity | now left].
  - destruct (name_test vm Hrec) as [name [Hget Htest]].
    cbn [find_target_vm]. rewrite Hget. cbn [bind].
    destruct (eq_str name target_name) eqn:E.
    + exists vm. split; [reflexivity|]. right. split; [now apply Htest | now left].
    + destruct IH as [v [Hv Hcase]]. exists v. split; [exact Hv|].
      destruct Hcase as [-> | [Hn Hin]]; [now left | right; split; [exact Hn | now right]].
Qed.

Lemma find_vm_ip_total (ips : list string) :
  exists v, find_vm_ip (map JStr ips) = Ok v.
Proof.
  induction ips as [|ip ips IH]; [now exists JNull|].
  cbn [map find_vm_ip py_startswith bind].
  destruct (existsb (startswith ip) excluded_prefixes); cbn [negb];
    [exact IH | now exists (JStr ip)].
Qed.

Lemma find_vm_ip_hit (ip : string) (rest : list json) :
  ~ excluded ip -> find_vm_ip (JStr ip :: rest) = Ok (JStr ip).
Proof.
  intros H. apply not_excluded_spec in H.
  cbn [find_vm_ip py_startswith bind]. now rewrite H.
Qed.

Lemma find_vm_ip_skip (pre : list string) (rest : list json) :
  Forall excluded pre ->
  find_vm_ip (map JStr pre ++ rest)%list = find_vm_ip rest.
Proof.
  induction 1 as [|ip pre Hip _ IH]; [reflexivity|].
  apply excluded_spec in Hip.
  cbn [map app find_vm_ip py_startswith bind]. now rewrite Hip.
Qed.

Lemma find_vm_ip_none (ips : list string) :
  Forall excluded ips -> find_vm_ip (map JStr ips) = Ok JNull.
Proof.
  intros H. rewrite <- (app_nil_r (map JStr ips)). now rewrite find_vm_ip_skip.
Qed.

Lemma find_vm_ip_cases (ips : list json) (v : json) :
  find_vm_ip ips = Ok v ->
  v = JNull \/ exists ip, v = JStr ip /\ ~ excluded ip.
Proof.
  induction ips as [|x ips IH]; cbn [find_vm_ip].
  - intros [= <-]. now left.
  - destruct x as [| | |s| |]; cbn [py_startswith bind]; try discriminate.
    destruct (existsb (startswith s) excluded_prefixes) eqn:E; cbn [negb];
      [exact IH|].
    intros [= <-]. right. exists s. split; [reflexivity|].
    now apply not_excluded_spec.
Qed.

(** ** The assembled document *)

Lemma add_host_base (vm_ip : json) (path : string) :
  add_host base_inventory vm_ip path = Ok (populated_inventory vm_ip path).
Proof. reflexivity. Qed.

Lemma truthy_str (s : string) : truthy (JStr s) = true <-> s <> "".
Proof.
  simpl. rewrite negb_true_iff. split.
  - intros H ->. discriminate.
  - intros H. destruct (String.eqb_spec s ""); congruence.
Qed.

Section Inventory.

Variable json_loads : string -> result json.

(** The document is one of two: the base document, or the base document
    with the target host added under a non-empty, non-excluded address. *)
Lemma get_inventory_cases (env : Env) (doc : json) :
  get_inventory json_loads env = Ok doc ->
  doc = base_inventory
  \/ exists ip, ip <> "" /\ ~ excluded ip
             /\ doc = populated_inventory (JStr ip) (ssh_key_path env).
Proof.
  unfold get_inventory.
  destruct (get_multipass_vm_info json_loads env) as [data|]; simpl; [|discriminate].
  destruct (py_get data "list" (JArr [])) as [vm_list|]; simpl; [|discriminate].
  destruct (py_iter vm_list) as [vms|]; simpl; [|discriminate].
  destruct (find_target_vm vms) as [target_vm|]; simpl; [|discriminate].
  destruct (if truthy target_vm then _ else _) as [running|]; simpl; [|discriminate].
  destruct running; [|intros [= <-]; now left].
  destruct (py_get target_vm "ipv4" (JArr [])) as [ipv4|]; simpl; [|discriminate].
  destruct (py_iter ipv4) as [ips|]; simpl; [|discriminate].
  destruct (find_vm_ip ips) as [vm_ip|] eqn:Hip; simpl; [|discriminate].
  destruct (truthy vm_ip) eqn:Ht; [|intros [= <-]; now left].
  rewrite add_host_base. intros [= <-]. right.
  apply find_vm_ip_cases in Hip as [-> | [ip [-> Hex]]]; [discriminate|].
  exists ip. split; [now apply truthy_str | now split].
Qed.

(** After the first loop: no target. *)
Lemma get_inventory_no_target (env : Env) (vms : list json) :
  fetches json_loads env vms ->
  find_target_vm vms = Ok JNull ->
  get_inventory json_loads env = Ok base_inventory.
Proof.
  intros [data [Hfetch Hlist]] Hfind. unfold get_inventory.
  rewrite Hfetch. simpl. rewrite Hlist. simpl. now rewrite Hfind.
Qed.

(** After the first loop: a target whose state is not "Running". *)
Lemma get_inventory_not_running (env : Env) (vms : list json) (vm : json) :
  fetches json_loads env vms ->
  find_target_vm vms = Ok vm -> named_target vm -> ~ is_running vm ->
  get_inventory json_loads env = Ok base_inventory.
Proof.
  intros [data [Hfetch Hlist]] Hfind Hn Hstate. unfold get_inventory.
  rewrite Hfetch. simpl. rewrite Hlist. simpl. rewrite Hfind. simpl.
  rewrite (named_truthy vm Hn).
  rewrite (py_get_record vm "state" JNull (named_is_record vm Hn)). simpl.
  destruct (eq_str _ "Running") eqn:E; [|reflexivity].
  exfalso. apply Hstate. apply eq_str_true in E. unfold is_running.
  destruct (field vm "state"); [now subst | discriminate].
Qed.

(** After the first loop: a running target; the second loop decides. *)
Lemma get_inventory_running (env : Env) (vms ips : list json) (vm ipv4 vm_ip : json) :
  fetches json_loads env vms ->
  find_target_vm vms = Ok vm -> named_target vm -> is_running vm ->
  (match field vm "ipv4" with Some v => v | None => JArr [] end) = ipv4 ->
  py_iter ipv4 = Ok ips ->
  find_vm_ip ips = Ok vm_ip ->
  get_inventory json_loads env
  = if truthy vm_ip then Ok (populated_inventory vm_ip (ssh_key_path env))
    else Ok base_inventory.
Proof.
  intros [data [Hfetch Hlist]] Hfind Hn Hrun Hipv4 Hiter Hip. unfold get_inventory.
  rewrite Hfetch. simpl. rewrite Hlist. simpl. rewrite Hfind. simpl.
  rewrite (named_truthy vm Hn).
  rewrite (py_get_record vm "state" JNull (named_is_record vm Hn)).
  unfold is_running in Hrun. rewrite Hrun. simpl.
  rewrite (py_get_record vm "ipv4" (JArr []) (named_is_record vm Hn)).
  rewrite Hipv4. simpl. rewrite Hiter. simpl. rewrite Hip. simpl.
  now rewrite add_host_base.
Qed.

(** On records of the data model the call returns. *)
Lemma get_inventory_total (env : Env) (vms : list json) :
  fetches json_loads env vms ->
  Forall vm_shaped vms ->
  exists doc, get_inventory json_loads env = Ok doc.
Proof.
  intros Hfetch Hshape.
  assert (Hrecs : Forall is_record vms)
    by (apply Forall_impl with (2 := Hshape); now intros vm [Hrec _]).
  destruct (find_target_vm_total vms Hrecs) as [vm [Hfind [-> | [Hn Hin]]]].
  - exists base_inventory. now apply (get_inventory_no_target env vms).
  - destruct (field vm "state") as [state|] eqn:Hstate.
    2:{ exists base_inventory.
        apply (get_inventory_not_running env vms vm); try assumption.
        unfold is_running. congruence. }
    destruct (eq_str state "Running") eqn:E.
    2:{ exists base_inventory.
        apply (get_inventory_not_running env vms vm); try assumption.
        unfold is_running. rewrite Hstate. intros [= ->]. discriminate. }
    apply eq_str_true in E. subst state.
    rewrite Forall_forall in Hshape.
    destruct (Hshape vm Hin) as [_ [Hnone | [ips Hips]]].
    + exists base_inventory.
      rewrite (get_inventory_running env vms [] vm (JArr []) JNull);
        try assumption; try reflexivity.
      now rewrite Hnone.
    + destruct (find_vm_ip_total ips) as [vm_ip Hip].
      rewrite (get_inventory_running env vms (map JStr ips) vm
                 (JArr (map JStr ips)) vm_ip);
        try assumption; try reflexivity.
      * destruct (truthy vm_ip); now eexists.
      * now rewrite Hips.
Qed.

End Inventory.

Lemma fetches_decoded (text : string) (vms : list json) :
  fetches (decode_as text (listing vms)) (env_printing text) vms.
Proof.
  exists (listing vms). unfold get_multipass_vm_info, decode_as. simpl.
  rewrite String.eqb_refl. split; reflexivity.
Qed.

Lemma not_excluded_by_test (ip : string) :
  existsb (startswith ip) excluded_prefixes = false -> ~ excluded ip.
Proof. apply not_excluded_spec. Qed.

Lemma excluded_by_test (ip : string) :
  existsb (startswith ip) excluded_prefixes = true -> excluded ip.
Proof. apply excluded_spec. Qed.

(** ** The fetch *)

(** C1 (as amended): when the command is not found (FileNotFoundError),
    exits with a non-zero status (CalledProcessError) or prints text that
    does not decode as JSON (JSONDecodeError), [get_multipass_vm_info]
    returns the mapping with an empty [list] and [get_inventory] returns
    the empty inventory document; an exception of the launch outside the
    three classes the handler names is raised again. *)
Theorem fetch_fails_soft (json_loads : string -> result json) (env : Env) :
  (subprocess_run env = Raise FileNotFoundError
   \/ subprocess_run env = Raise CalledProcessError
   \/ (exists stdout, subprocess_run env = Ok stdout
                   /\ json_loads stdout = Raise JSONDecodeError) ->
   get_multipass_vm_info json_loads env = Ok (JObj [("list", JArr [])])
   /\ get_inventory json_loads env = Ok base_inventory)
  /\ (forall e, ~ In e [CalledProcessError; JSONDecodeError; FileNotFoundError] ->
        subprocess_run env = Raise e ->
        get_multipass_vm_info json_loads env = Raise e).
Proof.
  split.
  - intros H.
    assert (Hinfo : get_multipass_vm_info json_loads env
                    = Ok (JObj [("list", JArr [])])).
    { unfold get_multipass_vm_info.
      destruct H as [H | [H | [stdout [H Hdec]]]]; rewrite H; simpl;
        [reflexivity | reflexivity | now rewrite Hdec]. }
    split; [exact Hinfo|].
    apply (get_inventory_no_target json_loads env []); [|reflexivity].
    now exists (JObj [("list", JArr [])]).
  - intros e Hnot Hrun. unfold get_multipass_vm_info, try_except.
    rewrite Hrun. cbn [bind].
    destruct (in_dec exn_eq_dec e [CalledProcessError; JSONDecodeError; FileNotFoundError])
      as [Hin|_]; [now elim Hnot | reflexivity].
Qed.

Lemma fetch_fails_soft_witness :
  get_multipass_vm_info (decode_as "{}" (JObj [])) (env_printing "not json")
    = Ok (JObj [("list", JArr [])])
  /\ get_inventory (decode_as "{}" (JObj [])) (env_printing "not json")
    = Ok base_inventory.
Proof.
  apply (fetch_fails_soft (decode_as "{}" (JObj [])) (env_printing "not json")).
  right; right. exists "not json". split; reflexivity.
Defined.

(** A launch that fails because the command cannot be executed: the
    exception is not one the handler names, and the program ends with it. *)
Lemma permission_error_not_caught :
  subprocess_run (env_raising PermissionError) = Raise PermissionError
  /\ get_multipass_vm_info (decode_as "{}" (JObj [])) (env_raising PermissionError)
     <> Ok (JObj [("list", JArr [])])
  /\ get_inventory (decode_as "{}" (JObj [])) (env_raising PermissionError)
     = Raise PermissionError
  /\ main (decode_as "{}" (JObj [])) list_mode (env_raising PermissionError)
     = Raise PermissionError.
Proof.
  split; [reflexivity|]. split; [discriminate|]. split; reflexivity.
Qed.

(** A running target: the first address of [ipv4] that is not excluded
    decides, whatever follows it. *)
Lemma get_inventory_first_address
    (json_loads : string -> result json) (env : Env)
    (pre post : list json) (vm : json)
    (ips_pre : list string) (ip : string) (tail : list json) :
  fetches json_loads env (pre ++ vm :: post)%list ->
  Forall other_record pre -> named_target vm -> is_running vm ->
  field vm "ipv4" = Some (JArr (map JStr ips_pre ++ JStr ip :: tail)%list) ->
  Forall excluded ips_pre -> ~ excluded ip ->
  get_inventory json_loads env
  = if String.eqb ip "" then Ok base_inventory
    else Ok (populated_inventory (JStr ip) (ssh_key_path env)).
Proof.
  intros Hfetch Hpre Hn Hrun Hipv4 Hex Hip.
  rewrite (get_inventory_running json_loads env _
             (map JStr ips_pre ++ JStr ip :: tail)%list vm
             (JArr (map JStr ips_pre ++ JStr ip :: tail)%list) (JStr ip) Hfetch);
    try assumption; try reflexivity.
  - cbn [truthy]. now destruct (String.eqb ip "").
  - rewrite find_target_vm_skip by assumption. now apply find_target_vm_hit.
  - now rewrite Hipv4.
  - rewrite find_vm_ip_skip by assumption. now apply find_vm_ip_hit.
Qed.

(** A running target all of whose addresses are excluded. *)
Lemma get_inventory_no_address
    (json_loads : string -> result json) (env : Env)
    (pre post : list json) (vm : json) (ips : list string) :
  fetches json_loads env (pre ++ vm :: post)%list ->
  Forall other_record pre -> named_target vm -> is_running vm ->
  field vm "ipv4" = Some (JArr (map JStr ips)) ->
  Forall excluded ips ->
  get_inventory json_loads env = Ok base_inventory.
Proof.
  intros Hfetch Hpre Hn Hrun Hipv4 Hex.
  rewrite (get_inventory_running json_loads env _
             (map JStr ips) vm (JArr (map JStr ips)) JNull Hfetch);
    try assumption; try reflexivity.
  - rewrite find_target_vm_skip by assumption. now apply find_target_vm_hit.
  - now rewrite Hipv4.
  - now apply find_vm_ip_none.
Qed.

(** ** Target resolution and address selection *)

(** C2: for every running target record, the address selected is the
    first one of its [ipv4], in order, that starts with none of "127.",
    "172.", "10.42.": the second loop returns it, and [get_inventory] adds
    the host under it whatever follows it in [ipv4] (an empty address so
    selected adds no host); when every address is excluded nothing is
    selected and the document is the empty inventory.  For a running
    target whose addresses are 127.0.0.1, 172.17.0.1, 10.42.0.5,
    192.168.64.10 the host is added under 192.168.64.10; when its only
    address is 10.42.0.5 the document is the empty inventory. *)
Theorem first_non_excluded_address_selected :
  (forall pre ip post,
      Forall excluded pre -> ~ excluded ip ->
      find_vm_ip (map JStr (pre ++ ip :: post)%list) = Ok (JStr ip))
  /\ (forall ips, Forall excluded ips -> find_vm_ip (map JStr ips) = Ok JNull)
  /\ (forall json_loads env pre vm post ips_pre ip tail,
        fetches json_loads env (pre ++ vm :: post)%list ->
        Forall other_record pre -> named_target vm -> is_running vm ->
        field vm "ipv4" = Some (JArr (map JStr ips_pre ++ JStr ip :: tail)%list) ->
        Forall excluded ips_pre -> ~ excluded ip ->
        get_inventory json_loads env
        = if String.eqb ip "" then Ok base_inventory
          else Ok (populated_inventory (JStr ip) (ssh_key_path env)))
  /\ (forall json_loads env pre vm post ips,
        fetches json_loads env (pre ++ vm :: post)%list ->
        Forall other_record pre -> named_target vm -> is_running vm ->
        field vm "ipv4" = Some (JArr (map JStr ips)) ->
        Forall excluded ips ->
        get_inventory json_loads env = Ok base_inventory)
  /\ (forall json_loads env pre post,
        fetches json_loads env
          (pre ++ vm_record target_name "Running" spec_addresses :: post)%list ->
        Forall other_record pre ->
        get_inventory json_loads env
        = Ok (populated_inventory (JStr "192.168.64.10") (ssh_key_path env)))
  /\ (forall json_loads env pre post,
        fetches json_loads env
          (pre ++ vm_record target_name "Running" ["10.42.0.5"] :: post)%list ->
        Forall other_record pre ->
        get_inventory json_loads env = Ok base_inventory).
Proof.
  split; [|split; [|split; [|split; [|split]]]].
  - intros pre ip post Hpre Hip. rewrite map_app. cbn [map].
    rewrite find_vm_ip_skip by assumption. now apply find_vm_ip_hit.
  - apply find_vm_ip_none.
  - intros L env pre vm post ips_pre ip tail.
    apply get_inventory_first_address.
  - intros L env pre vm post ips.
    apply get_inventory_no_address.
  - intros L env pre post Hfetch Hpre.
    rewrite (get_inventory_running L env _
               (map JStr spec_addresses)
               (vm_record target_name "Running" spec_addresses)
               (JArr (map JStr spec_addresses))
               (JStr "192.168.64.10") Hfetch); try reflexivity.
    rewrite find_target_vm_skip by assumption. now apply find_target_vm_hit.
  - intros L env pre post Hfetch Hpre.
    rewrite (get_inventory_running L env _
               [JStr "10.42.0.5"]
               (vm_record target_name "Running" ["10.42.0.5"])
               (JArr [JStr "10.42.0.5"])
               JNull Hfetch); try reflexivity.
    rewrite find_target_vm_skip by assumption. now apply find_target_vm_hit.
Qed.

Lemma first_non_excluded_address_selected_witness :
  find_vm_ip (map JStr (["127.0.0.1"; "10.42.0.5"] ++ "192.168.64.10" :: ["192.168.64.11"])%list)
    = Ok (JStr "192.168.64.10")
  /\ get_inventory
       (decode_as "out"
          (listing [vm_record "primary" "Running" ["192.168.64.2"];
                    vm_record target_name "Running"
                      ["172.17.0.1"; "192.168.64.10"; "192.168.64.99"; "10.42.0.5"]]))
       (env_printing "out")
     = Ok (populated_inventory (JStr "192.168.64.10")
             (ssh_key_path (env_printing "out")))
  /\ get_inventory
       (decode_as "out" (listing [vm_record target_name "Running" spec_addresses]))
       (env_printing "out")
     = Ok (populated_inventory (JStr "192.168.64.10")
             "/home/user/jterrazz-infra/local-data/ssh/id_rsa").
Proof.
  split; [|split].
  - apply (proj1 first_non_excluded_address_selected).
    + repeat (apply Forall_cons; [apply excluded_by_test; reflexivity|]).
      apply Forall_nil.
    + apply not_excluded_by_test. reflexivity.
  - apply (proj1 (proj2 (proj2 first_non_excluded_address_selected))
             (decode_as "out"
                (listing [vm_record "primary" "Running" ["192.168.64.2"];
                          vm_record target_name "Running"
                            ["172.17.0.1"; "192.168.64.10"; "192.168.64.99"; "10.42.0.5"]]))
             (env_printing "out")
             [vm_record "primary" "Running" ["192.168.64.2"]]
             (vm_record target_name "Running"
                ["172.17.0.1"; "192.168.64.10"; "192.168.64.99"; "10.42.0.5"])
             [] ["172.17.0.1"] "192.168.64.10"
             [JStr "192.168.64.99"; JStr "10.42.0.5"]).
    + apply fetches_decoded.
    + apply Forall_cons; [|apply Forall_nil].
      split; [now eexists | discriminate].
    + reflexivity.
    + reflexivity.
    + reflexivity.
    + apply Forall_cons; [apply excluded_by_test; reflexivity | apply Forall_nil].
    + apply not_excluded_by_test. reflexivity.
  - apply (proj1 (proj2 (proj2 (proj2 (proj2 first_non_excluded_address_selected))))
             (decode_as "out" (listing [vm_record target_name "Running" spec_addresses]))
             (env_printing "out") [] []).
    + apply fetches_decoded.
    + constructor.
Defined.

Section Resolution.

Variable json_loads : string -> result json.
Variable env : Env.

(** A running target whose first non-excluded address is not empty. *)
Lemma get_inventory_selects (pre post : list json) (vm : json)
    (ips_pre ips_post : list string) (ip : string) :
  fetches json_loads env (pre ++ vm :: post)%list ->
  Forall other_record pre -> named_target vm -> is_running vm ->
  field vm "ipv4" = Some (JArr (map JStr (ips_pre ++ ip :: ips_post)%list)) ->
  Forall excluded ips_pre -> ~ excluded ip -> ip <> "" ->
  get_inventory json_loads env
  = Ok (populated_inventory (JStr ip) (ssh_key_path env)).
Proof.
  intros Hfetch Hpre Hn Hrun Hipv4 Hex Hip Hne.
  rewrite (get_inventory_running json_loads env _
             (map JStr (ips_pre ++ ip :: ips_post)%list) vm
             (JArr (map JStr (ips_pre ++ ip :: ips_post)%list)) (JStr ip) Hfetch);
    try assumption; try reflexivity.
  - apply truthy_str in Hne. now rewrite Hne.
  - rewrite find_target_vm_skip by assumption. now apply find_target_vm_hit.
  - now rewrite Hipv4.
  - rewrite map_app. cbn [map]. rewrite find_vm_ip_skip by assumption.
    now apply find_vm_ip_hit.
Qed.

(** A running target all of whose addresses are excluded. *)
Lemma get_inventory_all_excluded (pre post : list json) (vm : json)
    (ips : list string) :
  fetches json_loads env (pre ++ vm :: post)%list ->
  Forall other_record pre -> named_target vm -> is_running vm ->
  field vm "ipv4" = Some (JArr (map JStr ips)) ->
  Forall excluded ips ->
  get_inventory json_loads env = Ok base_inventory.
Proof.
  intros Hfetch Hpre Hn Hrun Hipv4 Hex.
  rewrite (get_inventory_running json_loads env _
             (map JStr ips) vm (JArr (map JStr ips)) JNull Hfetch);
    try assumption; try reflexivity.
  - rewrite find_target_vm_skip by assumption. now apply find_target_vm_hit.
  - now rewrite Hipv4.
  - now apply find_vm_ip_none.
Qed.

(** A target that is not running. *)
Lemma get_inventory_stopped (pre post : list json) (vm : json) :
  fetches json_loads env (pre ++ vm :: post)%list ->
  Forall other_record pre -> named_target vm -> ~ is_running vm ->
  get_inventory json_loads env = Ok base_inventory.
Proof.
  intros Hfetch Hpre Hn Hrun.
  apply (get_inventory_not_running json_loads env _ vm Hfetch); try assumption.
  rewrite find_target_vm_skip by assumption. now apply find_target_vm_hit.
Qed.

End Resolution.

(** C3: when no record of the fetched list is named "jterrazz-infra", or
    the first record so named is in a state other than "Running", or all
    addresses of that record are excluded, [get_inventory] returns a
    document whose [development.hosts] is the empty list and whose
    [_meta.hostvars] is the empty mapping, with the top-level keys [all],
    [development] and [_meta]. *)
Theorem empty_inventory_when_unresolved
    (json_loads : string -> result json) (env : Env) (vms : list json) :
  fetches json_loads env vms ->
  (Forall other_record vms
   \/ (exists pre vm post,
         vms = (pre ++ vm :: post)%list /\ Forall other_record pre
         /\ named_target vm /\ ~ is_running vm)
   \/ (exists pre vm post ips,
         vms = (pre ++ vm :: post)%list /\ Forall other_record pre
         /\ named_target vm /\ is_running vm
         /\ field vm "ipv4" = Some (JArr (map JStr ips))
         /\ Forall excluded ips)) ->
  exists doc,
    get_inventory json_loads env = Ok doc
    /\ at2 doc "development" "hosts" = Some (JArr [])
    /\ at2 doc "_meta" "hostvars" = Some (JObj [])
    /\ keys doc = ["all"; "development"; "_meta"].
Proof.
  intros Hfetch Hcase. exists base_inventory.
  split; [|repeat split].
  destruct Hcase as [Hnone | [(pre & vm & post & -> & Hpre & Hn & Hrun)
                            | (pre & vm & post & ips & -> & Hpre & Hn & Hrun & Hipv4 & Hex)]].
  - apply (get_inventory_no_target json_loads env vms Hfetch).
    now apply find_target_vm_none.
  - now apply (get_inventory_stopped json_loads env pre post vm).
  - now apply (get_inventory_all_excluded json_loads env pre post vm ips).
Qed.

Lemma other_record_by_name (name state : string) (ips : list string) :
  String.eqb name target_name = false ->
  other_record (vm_record name state ips).
Proof.
  intros H. split; [now eexists|]. unfold named_target. simpl.
  intros [= E]. rewrite E, String.eqb_refl in H. discriminate.
Qed.

Lemma empty_inventory_when_unresolved_witness :
  (exists doc,
     get_inventory
       (decode_as "out" (listing [vm_record "primary" "Running" ["192.168.64.2"]]))
       (env_printing "out") = Ok doc
     /\ at2 doc "development" "hosts" = Some (JArr [])
     /\ at2 doc "_meta" "hostvars" = Some (JObj [])
     /\ keys doc = ["all"; "development"; "_meta"])
  /\ (exists doc,
     get_inventory
       (decode_as "out" (listing [vm_record "primary" "Running" ["192.168.64.2"];
                                  vm_record target_name "Stopped" []]))
       (env_printing "out") = Ok doc
     /\ at2 doc "development" "hosts" = Some (JArr [])
     /\ at2 doc "_meta" "hostvars" = Some (JObj [])
     /\ keys doc = ["all"; "development"; "_meta"])
  /\ (exists doc,
     get_inventory
       (decode_as "out" (listing [vm_record target_name "Running" ["10.42.0.5"; "172.17.0.1"]]))
       (env_printing "out") = Ok doc
     /\ at2 doc "development" "hosts" = Some (JArr [])
     /\ at2 doc "_meta" "hostvars" = Some (JObj [])
     /\ keys doc = ["all"; "development"; "_meta"]).
Proof.
  split; [|split].
  - apply (empty_inventory_when_unresolved _ _ _ (fetches_decoded _ _)).
    left. apply Forall_cons; [now apply other_record_by_name | apply Forall_nil].
  - apply (empty_inventory_when_unresolved _ _ _ (fetches_decoded _ _)).
    right; left.
    exists [vm_record "primary" "Running" ["192.168.64.2"]],
           (vm_record target_name "Stopped" []), [].
    split; [reflexivity|]. split; [|split].
    + apply Forall_cons; [now apply other_record_by_name | apply Forall_nil].
    + reflexivity.
    + discriminate.
  - apply (empty_inventory_when_unresolved _ _ _ (fetches_decoded _ _)).
    right; right.
    exists [], (vm_record target_name "Running" ["10.42.0.5"; "172.17.0.1"]), [],
           ["10.42.0.5"; "172.17.0.1"].
    split; [reflexivity|]. split; [constructor|].
    split; [reflexivity|]. split; [reflexivity|]. split; [reflexivity|].
    repeat (apply Forall_cons; [apply excluded_by_test; reflexivity|]).
    apply Forall_nil.
Defined.

(** ** Host variables *)

(** C4 (as amended): whenever a qualifying VM and a qualifying address
    that is not the empty string are found, [_meta.hostvars] maps
    "jterrazz-infra" to exactly four variables: [ansible_host], the chosen
    address; [ansible_user], "ubuntu"; [ansible_ssh_private_key_file], the
    path [local-data/ssh/id_rsa] under the project root, which lies four
    [dirname] steps above the script file, that is three directories above
    the script's own directory; [ansible_ssh_common_args], the options that
    switch host-key checking off.  In every document [get_inventory]
    returns, [_meta.hostvars] is either empty or holds this one complete
    entry.  When the first address that is not excluded is the empty
    string, no host is added, whatever follows it. *)
Theorem host_variables_on_success
    (json_loads : string -> result json) (env : Env) :
  (forall pre vm post ips_pre ip ips_post,
      fetches json_loads env (pre ++ vm :: post)%list ->
      Forall other_record pre -> named_target vm -> is_running vm ->
      field vm "ipv4" = Some (JArr (map JStr (ips_pre ++ ip :: ips_post)%list)) ->
      Forall excluded ips_pre -> ~ excluded ip -> ip <> "" ->
      exists doc,
        get_inventory json_loads env = Ok doc
        /\ at2 doc "_meta" "hostvars"
           = Some (JObj [("jterrazz-infra",
               JObj [ ("ansible_host", JStr ip);
                      ("ansible_user", JStr "ubuntu");
                      ("ansible_ssh_private_key_file",
                       JStr (path_join (get_project_root env) "local-data/ssh/id_rsa"));
                      ("ansible_ssh_common_args",
                       JStr "-o StrictHostKeyChecking=no -o UserKnownHostsFile=/dev/null") ])]))
  /\ get_project_root env
     = dirname (dirname (dirname (dirname (script_file env))))
  /\ (forall root c1 c2 c3 f,
        endswith_sep root = false ->
        no_sep c1 -> no_sep c2 -> no_sep c3 -> no_sep f ->
        c1 <> "" -> c2 <> "" -> c3 <> "" ->
        script_file env = child (child (child (child root c1) c2) c3) f ->
        path_join (get_project_root env) "local-data/ssh/id_rsa"
        = root ++ "/local-data/ssh/id_rsa")
  /\ (forall doc,
        get_inventory json_loads env = Ok doc ->
        at2 doc "_meta" "hostvars" = Some (JObj [])
        \/ exists ip,
             ip <> "" /\ ~ excluded ip
             /\ at2 doc "_meta" "hostvars"
                = Some (JObj [("jterrazz-infra",
                     host_variables (JStr ip) (ssh_key_path env))]))
  /\ (forall pre vm post ips_pre tail,
        fetches json_loads env (pre ++ vm :: post)%list ->
        Forall other_record pre -> named_target vm -> is_running vm ->
        field vm "ipv4" = Some (JArr (map JStr ips_pre ++ JStr "" :: tail)%list) ->
        Forall excluded ips_pre ->
        get_inventory json_loads env = Ok base_inventory
        /\ at2 base_inventory "development" "hosts" = Some (JArr [])
        /\ at2 base_inventory "_meta" "hostvars" = Some (JObj [])).
Proof.
  split; [|split; [|split; [|split]]].
  5:{ intros pre vm post ips_pre tail Hfetch Hpre Hn Hrun Hipv4 Hex.
      split; [|split; reflexivity].
      rewrite (get_inventory_first_address json_loads env pre post vm ips_pre "" tail);
        try assumption; [reflexivity|].
      apply not_excluded_by_test. reflexivity. }
  - intros pre vm post ips_pre ip ips_post Hfetch Hpre Hn Hrun Hipv4 Hex Hip Hne.
    eexists. split.
    + now apply (get_inventory_selects json_loads env pre post vm ips_pre ips_post ip).
    + reflexivity.
  - reflexivity.
  - intros root c1 c2 c3 f Hroot H1 H2 H3 Hf N1 N2 N3 Hfile.
    now apply (ssh_key_path_layout env root c1 c2 c3 f).
  - intros doc Hdoc.
    apply get_inventory_cases in Hdoc as [-> | (ip & Hne & Hex & ->)].
    + now left.
    + right. exists ip. repeat split; assumption.
Qed.

Lemma host_variables_on_success_witness :
  (exists doc,
     get_inventory
       (decode_as "out" (listing [vm_record target_name "Running" spec_addresses]))
       (env_printing "out") = Ok doc
     /\ at2 doc "_meta" "hostvars"
        = Some (JObj [("jterrazz-infra",
            JObj [ ("ansible_host", JStr "192.168.64.10");
                   ("ansible_user", JStr "ubuntu");
                   ("ansible_ssh_private_key_file",
                    JStr "/home/user/jterrazz-infra/local-data/ssh/id_rsa");
                   ("ansible_ssh_common_args",
                    JStr "-o StrictHostKeyChecking=no -o UserKnownHostsFile=/dev/null") ])]))
  /\ path_join (get_project_root (env_printing "out")) "local-data/ssh/id_rsa"
     = "/home/user/jterrazz-infra" ++ "/local-data/ssh/id_rsa"
  /\ get_inventory
       (decode_as "out"
          (listing [vm_record target_name "Running"
                      ["10.42.0.5"; ""; "192.168.64.10"]]))
       (env_printing "out") = Ok base_inventory.
Proof.
  split; [|split].
  3:{ apply (proj2 (proj2 (proj2 (proj2 (host_variables_on_success
               (decode_as "out"
                  (listing [vm_record target_name "Running"
                              ["10.42.0.5"; ""; "192.168.64.10"]]))
               (env_printing "out")))))
               [] (vm_record target_name "Running" ["10.42.0.5"; ""; "192.168.64.10"])
               [] ["10.42.0.5"] [JStr "192.168.64.10"]).
      - apply fetches_decoded.
      - apply Forall_nil.
      - reflexivity.
      - reflexivity.
      - reflexivity.
      - apply Forall_cons; [apply excluded_by_test; reflexivity | apply Forall_nil]. }
  - apply (proj1 (host_variables_on_success
             (decode_as "out" (listing [vm_record target_name "Running" spec_addresses]))
             (env_printing "out"))
             [] (vm_record target_name "Running" spec_addresses) []
             ["127.0.0.1"; "172.17.0.1"; "10.42.0.5"] "192.168.64.10" []).
    + apply fetches_decoded.
    + apply Forall_nil.
    + reflexivity.
    + reflexivity.
    + reflexivity.
    + repeat (apply Forall_cons; [apply excluded_by_test; reflexivity|]).
      apply Forall_nil.
    + apply not_excluded_by_test. reflexivity.
    + discriminate.
  - apply (proj1 (proj2 (proj2 (host_variables_on_success
             (decode_as "out" (JObj [])) (env_printing "out"))))
             "/home/user/jterrazz-infra" "ansible" "inventories" "multipass"
             "inventory.py");
      try reflexivity; discriminate.
Defined.

(** A running target whose first address is the empty string: the
    address starts with no excluded prefix and the second loop returns it,
    yet no host is added, also when a usable address follows it. *)
Lemma empty_address_adds_no_host :
  named_target (vm_record target_name "Running" [""])
  /\ is_running (vm_record target_name "Running" [""])
  /\ ~ excluded ""
  /\ find_vm_ip [JStr ""] = Ok (JStr "")
  /\ get_inventory (decode_as "out" (listing [vm_record target_name "Running" [""]]))
       (env_printing "out") = Ok base_inventory
  /\ at2 base_inventory "_meta" "hostvars" = Some (JObj [])
  /\ find_vm_ip [JStr ""; JStr "192.168.64.10"] = Ok (JStr "")
  /\ get_inventory
       (decode_as "out"
          (listing [vm_record target_name "Running" [""; "192.168.64.10"]]))
       (env_printing "out") = Ok base_inventory.
Proof.
  split; [reflexivity|]. split; [reflexivity|].
  split; [apply not_excluded_by_test; reflexivity|].
  repeat split.
Qed.

(** ** Shape of the document *)

(** C8: [get_inventory] returns a document for every fetched list of VM
    records, and in every document it returns [all.children] is exactly
    ["development"], [development.hosts] is [] or exactly
    ["jterrazz-infra"], every key of [_meta.hostvars] is "jterrazz-infra",
    and [development.hosts] is non-empty exactly when [_meta.hostvars]
    is. *)
Theorem inventory_shape (json_loads : string -> result json) (env : Env) :
  (forall vms,
      fetches json_loads env vms -> Forall vm_shaped vms ->
      exists doc, get_inventory json_loads env = Ok doc)
  /\ (forall doc,
        get_inventory json_loads env = Ok doc ->
        at2 doc "all" "children" = Some (JArr [JStr "development"])
        /\ exists hosts hostvars,
             at2 doc "development" "hosts" = Some (JArr hosts)
             /\ at2 doc "_meta" "hostvars" = Some (JObj hostvars)
             /\ (hosts = [] \/ hosts = [JStr "jterrazz-infra"])
             /\ (forall k, In k (map fst hostvars) -> k = "jterrazz-infra")
             /\ (hosts <> [] <-> hostvars <> [])).
Proof.
  split; [apply get_inventory_total|].
  intros doc Hdoc.
  apply get_inventory_cases in Hdoc as [-> | (ip & Hne & Hex & ->)].
  - split; [reflexivity|]. exists [], [].
    repeat split; try reflexivity; try (now left); try contradiction;
      intros H; now elim H.
  - split; [reflexivity|].
    exists [JStr "jterrazz-infra"],
           [(target_name, host_variables (JStr ip) (ssh_key_path env))].
    repeat split; try reflexivity; try (now right); try discriminate.
    intros k [<- | []]. reflexivity.
Qed.

Lemma inventory_shape_witness :
  (exists doc,
     get_inventory
       (decode_as "out" (listing [vm_record target_name "Running" spec_addresses]))
       (env_printing "out") = Ok doc)
  /\ at2 (populated_inventory (JStr "192.168.64.10")
            "/home/user/jterrazz-infra/local-data/ssh/id_rsa") "all" "children"
     = Some (JArr [JStr "development"])
  /\ exists hosts hostvars,
       at2 (populated_inventory (JStr "192.168.64.10")
              "/home/user/jterrazz-infra/local-data/ssh/id_rsa")
           "development" "hosts" = Some (JArr hosts)
       /\ at2 (populated_inventory (JStr "192.168.64.10")
                 "/home/user/jterrazz-infra/local-data/ssh/id_rsa")
              "_meta" "hostvars" = Some (JObj hostvars)
       /\ (hosts = [] \/ hosts = [JStr "jterrazz-infra"])
       /\ (forall k, In k (map fst hostvars) -> k = "jterrazz-infra")
       /\ (hosts <> [] <-> hostvars <> []).
Proof.
  split.
  - apply (proj1 (inventory_shape _ _) _ (fetches_decoded _ _)).
    apply Forall_cons; [|apply Forall_nil].
    split; [now eexists | right; now exists spec_addresses].
  - apply (proj2 (inventory_shape
             (decode_as "out" (listing [vm_record target_name "Running" spec_addresses]))
             (env_printing "out"))).
    reflexivity.
Defined.

(** ** Missing keys *)

Lemma nameless_not_named (vm : json) : field vm "name" = None -> ~ named_target vm.
Proof. unfold named_target. congruence. Qed.

Lemma absent_state_not_running (vm : json) : field vm "state" = None -> ~ is_running vm.
Proof. unfold is_running. congruence. Qed.

(** C10: records are mappings that may lack keys.  A record without
    [name] is passed over by the first loop; a target without [state], and
    a running target without [ipv4] (read as the empty sequence), give the
    empty inventory document.  Each of these calls returns. *)
Theorem missing_keys_are_tolerated
    (json_loads : string -> result json) (env : Env) :
  (forall pre vm post,
      is_record vm -> field vm "name" = None ->
      find_target_vm (pre ++ vm :: post)%list = find_target_vm (pre ++ post)%list)
  /\ (forall vms,
        fetches json_loads env vms ->
        Forall (fun vm => is_record vm /\ field vm "name" = None) vms ->
        get_inventory json_loads env = Ok base_inventory)
  /\ (forall pre vm post,
        fetches json_loads env (pre ++ vm :: post)%list ->
        Forall other_record pre -> named_target vm ->
        field vm "state" = None ->
        get_inventory json_loads env = Ok base_inventory)
  /\ (forall pre vm post,
        fetches json_loads env (pre ++ vm :: post)%list ->
        Forall other_record pre -> named_target vm -> is_running vm ->
        field vm "ipv4" = None ->
        py_get vm "ipv4" (JArr []) = Ok (JArr [])
        /\ get_inventory json_loads env = Ok base_inventory).
Proof.
  split; [|split; [|split]].
  - intros pre vm post Hrec Hname.
    induction pre as [|x pre IH].
    + apply (find_target_vm_skip [vm] post).
      apply Forall_cons; [|apply Forall_nil].
      split; [exact Hrec | now apply nameless_not_named].
    + cbn [app find_target_vm]. destruct (py_get x "name" JNull); cbn [bind];
        [|reflexivity].
      now destruct (eq_str _ target_name).
  - intros vms Hfetch Hall.
    apply (get_inventory_no_target json_loads env vms Hfetch).
    apply find_target_vm_none.
    apply Forall_impl with (2 := Hall).
    intros vm [Hrec Hname]. split; [exact Hrec | now apply nameless_not_named].
  - intros pre vm post Hfetch Hpre Hn Hstate.
    apply (get_inventory_stopped json_loads env pre post vm); try assumption.
    now apply absent_state_not_running.
  - intros pre vm post Hfetch Hpre Hn Hrun Hipv4. split.
    + rewrite (py_get_record vm "ipv4" (JArr []) (named_is_record vm Hn)).
      now rewrite Hipv4.
    + rewrite (get_inventory_running json_loads env _ [] vm (JArr []) JNull Hfetch);
        try assumption; try reflexivity.
      * rewrite find_target_vm_skip by assumption. now apply find_target_vm_hit.
      * now rewrite Hipv4.
Qed.

Lemma missing_keys_are_tolerated_witness :
  find_target_vm
    ([JNum "7"] ++ JObj [("state", JStr "Running")]
       :: [vm_record target_name "Running" spec_addresses])%list
  = find_target_vm
      ([JNum "7"] ++ [vm_record target_name "Running" spec_addresses])%list
  /\ get_inventory
       (decode_as "out" (listing [JObj [("state", JStr "Running")]; JObj []]))
       (env_printing "out") = Ok base_inventory
  /\ get_inventory
       (decode_as "out" (listing [JObj [("name", JStr target_name);
                                        ("ipv4", JArr [JStr "192.168.64.10"])]]))
       (env_printing "out") = Ok base_inventory
  /\ get_inventory
       (decode_as "out" (listing [JObj [("name", JStr target_name);
                                        ("state", JStr "Running")]]))
       (env_printing "out") = Ok base_inventory.
Proof.
  split; [|split; [|split]].
  - apply (proj1 (missing_keys_are_tolerated
                    (decode_as "out" (JObj [])) (env_printing "out"))).
    + now eexists.
    + reflexivity.
  - apply (proj1 (proj2 (missing_keys_are_tolerated _ _)) _ (fetches_decoded _ _)).
    apply Forall_cons; [split; [now eexists | reflexivity]|].
    apply Forall_cons; [split; [now eexists | reflexivity]|].
    apply Forall_nil.
  - apply (proj1 (proj2 (proj2 (missing_keys_are_tolerated
             (decode_as "out" (listing [JObj [("name", JStr target_name);
                                              ("ipv4", JArr [JStr "192.168.64.10"])]]))
             (env_printing "out"))))
             [] (JObj [("name", JStr target_name);
                       ("ipv4", JArr [JStr "192.168.64.10"])]) []).
    + apply fetches_decoded.
    + apply Forall_nil.
    + reflexivity.
    + reflexivity.
  - apply (proj2 (proj2 (proj2 (missing_keys_are_tolerated
             (decode_as "out" (listing [JObj [("name", JStr target_name);
                                              ("state", JStr "Running")]]))
             (env_printing "out"))))
             [] (JObj [("name", JStr target_name); ("state", JStr "Running")]) []).
    + apply fetches_decoded.
    + apply Forall_nil.
    + reflexivity.
    + reflexivity.
    + reflexivity.
Defined.

(** ** The command line *)

Lemma at3_populated (vm_ip : json) (path name : string) :
  at3 (populated_inventory vm_ip path) "_meta" "hostvars" name
  = if String.eqb target_name name then Some (host_variables vm_ip path) else None.
Proof. reflexivity. Qed.

Section CommandLine.

Variable json_loads : string -> result json.
Variable env : Env.

Lemma main_list (host : option string) (doc : json) :
  get_inventory json_loads env = Ok doc ->
  main json_loads {| args_list := true; args_host := host |} env = stdout_of doc.
Proof. intros H. unfold main. now rewrite H. Qed.

Lemma main_no_flags (doc : json) :
  get_inventory json_loads env = Ok doc ->
  main json_loads no_flags env = stdout_of doc.
Proof. intros H. unfold main. now rewrite H. Qed.

Lemma main_raises (args : Namespace) (e : exn) :
  get_inventory json_loads env = Raise e -> main json_loads args env = Raise e.
Proof. intros H. unfold main. now rewrite H. Qed.

Lemma main_host (name : string) (doc : json) :
  get_inventory json_loads env = Ok doc -> name <> "" ->
  main json_loads (host_mode name) env = stdout_of (host_submapping doc name).
Proof.
  intros Hdoc Hne. unfold main. rewrite Hdoc.
  unfold host_given, host_name, host_mode. cbn [bind args_list args_host].
  apply truthy_str in Hne. rewrite Hne.
  apply get_inventory_cases in Hdoc as [-> | (ip & _ & _ & ->)]; reflexivity.
Qed.

Lemma submapping_cases (name : string) (doc : json) :
  get_inventory json_loads env = Ok doc ->
  (doc = base_inventory /\ at3 doc "_meta" "hostvars" name = None)
  \/ exists ip,
       doc = populated_inventory (JStr ip) (ssh_key_path env)
       /\ ((name = target_name
            /\ at3 doc "_meta" "hostvars" name
               = Some (host_variables (JStr ip) (ssh_key_path env)))
           \/ (name <> target_name /\ at3 doc "_meta" "hostvars" name = None)).
Proof.
  intros Hdoc.
  apply get_inventory_cases in Hdoc as [-> | (ip & _ & _ & ->)].
  - left. split; reflexivity.
  - right. exists ip. split; [reflexivity|].
    rewrite at3_populated.
    destruct (String.eqb_spec target_name name) as [E|E].
    + left. split; [now rewrite <- E | reflexivity].
    + right. split; [intros ->; now apply E | reflexivity].
Qed.

End CommandLine.

(** C5: the mapping [--host jterrazz-infra] prints is the one the document
    printed by [--list] holds under [_meta.hostvars.jterrazz-infra]; where
    the document holds none, [--host jterrazz-infra] prints the empty
    mapping. *)
Theorem host_mode_agrees_with_list_mode
    (json_loads : string -> result json) (env : Env) (doc : json) :
  get_inventory json_loads env = Ok doc ->
  main json_loads list_mode env = Ok (json_dumps doc ++ String newline "")
  /\ (forall hv,
        at3 doc "_meta" "hostvars" "jterrazz-infra" = Some hv ->
        main json_loads (host_mode "jterrazz-infra") env
        = Ok (json_dumps hv ++ String newline ""))
  /\ (at3 doc "_meta" "hostvars" "jterrazz-infra" = None ->
        main json_loads (host_mode "jterrazz-infra") env
        = Ok ("{}" ++ String newline "")).
Proof.
  intros Hdoc. split; [now apply main_list|].
  assert (Hhost : main json_loads (host_mode "jterrazz-infra") env
                  = stdout_of (host_submapping doc "jterrazz-infra"))
    by (apply main_host; [exact Hdoc | discriminate]).
  unfold host_submapping in Hhost. split.
  - intros hv Hhv. now rewrite Hhv in Hhost.
  - intros Hnone. now rewrite Hnone in Hhost.
Qed.

Lemma host_mode_agrees_with_list_mode_witness :
  at3 (populated_inventory (JStr "192.168.64.10")
         "/home/user/jterrazz-infra/local-data/ssh/id_rsa")
      "_meta" "hostvars" "jterrazz-infra"
    = Some (host_variables (JStr "192.168.64.10")
              "/home/user/jterrazz-infra/local-data/ssh/id_rsa")
  /\ main (decode_as "out" (listing [vm_record target_name "Running" spec_addresses]))
       (host_mode "jterrazz-infra") (env_printing "out")
     = Ok found_host_text.
Proof.
  split; [reflexivity|].
  apply (proj1 (proj2 (host_mode_agrees_with_list_mode
           (decode_as "out" (listing [vm_record target_name "Running" spec_addresses]))
           (env_printing "out")
           (populated_inventory (JStr "192.168.64.10")
              "/home/user/jterrazz-infra/local-data/ssh/id_rsa")
           eq_refl))
           (host_variables (JStr "192.168.64.10")
              "/home/user/jterrazz-infra/local-data/ssh/id_rsa")).
  reflexivity.
Defined.

(** C6: with no flags the program prints what it prints with [--list],
    the whole document as JSON indented by two spaces per level. *)
Theorem no_flags_same_as_list
    (json_loads : string -> result json) (env : Env) :
  main json_loads no_flags env = main json_loads list_mode env
  /\ (forall doc,
        get_inventory json_loads env = Ok doc ->
        main json_loads no_flags env = Ok (json_dumps doc ++ String newline ""))
  /\ (get_inventory json_loads env = Ok base_inventory ->
        main json_loads no_flags env = Ok empty_inventory_text).
Proof.
  split; [|split].
  - unfold main. now destruct (get_inventory json_loads env).
  - intros doc Hdoc. now apply main_no_flags.
  - intros Hdoc. now rewrite (main_no_flags json_loads env _ Hdoc).
Qed.

Lemma no_flags_same_as_list_witness :
  main (decode_as "{}" (JObj [])) no_flags (env_raising CalledProcessError)
  = Ok empty_inventory_text.
Proof.
  apply (proj2 (proj2 (no_flags_same_as_list
           (decode_as "{}" (JObj [])) (env_raising CalledProcessError)))).
  reflexivity.
Defined.

(** C7: [--host ""] is the input on which the code departs from the
    claim.  The empty name is never a key of [_meta.hostvars], yet
    [--host ""] does not print the empty mapping: the test [elif args.host]
    fails for the empty string, the branch commented "Default to --list if
    no arguments" runs, and the whole document is printed. *)
Theorem empty_host_name_prints_document
    (json_loads : string -> result json) (env : Env) (doc : json) :
  get_inventory json_loads env = Ok doc ->
  at3 doc "_meta" "hostvars" "" = None
  /\ main json_loads (host_mode "") env = Ok (json_dumps doc ++ String newline "")
  /\ main json_loads (host_mode "") env = main json_loads no_flags env
  /\ main json_loads (host_mode "") env <> Ok ("{}" ++ String newline "").
Proof.
  intros Hdoc.
  assert (Hmain : main json_loads (host_mode "") env
                  = Ok (json_dumps doc ++ String newline ""))
    by (unfold main; now rewrite Hdoc).
  split; [|split; [exact Hmain | split]].
  - destruct (submapping_cases json_loads env "" doc Hdoc)
      as [[_ H] | (ip & _ & [[E _] | [_ H]])]; [exact H | discriminate | exact H].
  - now rewrite Hmain, (main_no_flags json_loads env doc Hdoc).
  - rewrite Hmain. intros H. injection H as H.
    destruct (get_inventory_cases json_loads env doc Hdoc) as [-> | (ip & _ & _ & ->)];
      apply (f_equal (String.get 1)) in H; lazy in H; discriminate.
Qed.

Lemma empty_host_name_prints_document_witness :
  at3 base_inventory "_meta" "hostvars" "" = None
  /\ main (decode_as "{}" (JObj [])) (host_mode "") (env_raising FileNotFoundError)
     = Ok (json_dumps base_inventory ++ String newline "")
  /\ main (decode_as "{}" (JObj [])) (host_mode "") (env_raising FileNotFoundError)
     = main (decode_as "{}" (JObj [])) no_flags (env_raising FileNotFoundError)
  /\ main (decode_as "{}" (JObj [])) (host_mode "") (env_raising FileNotFoundError)
     <> Ok ("{}" ++ String newline "").
Proof.
  apply (empty_host_name_prints_document (decode_as "{}" (JObj []))
           (env_raising FileNotFoundError) base_inventory).
  reflexivity.
Defined.

(** X17: for every host name other than the empty string that is not a
    key of [_meta.hostvars], [--host name] prints the empty mapping; every
    non-empty name other than "jterrazz-infra" is such a name, whatever
    the fetch returned. *)
Theorem unknown_host_prints_empty_mapping
    (json_loads : string -> result json) (env : Env) (doc : json) (name : string) :
  get_inventory json_loads env = Ok doc ->
  name <> "" ->
  (at3 doc "_meta" "hostvars" name = None ->
     main json_loads (host_mode name) env = Ok ("{}" ++ String newline ""))
  /\ (name <> "jterrazz-infra" -> at3 doc "_meta" "hostvars" name = None).
Proof.
  intros Hdoc Hne. split.
  - intros Hnone. rewrite (main_host json_loads env name doc Hdoc Hne).
    unfold host_submapping. now rewrite Hnone.
  - intros Hother.
    destruct (submapping_cases json_loads env name doc Hdoc)
      as [[_ H] | (ip & _ & [[E _] | [_ H]])]; [exact H | | exact H].
    now elim Hother.
Qed.

Lemma unknown_host_prints_empty_mapping_witness :
  main (decode_as "out" (listing [vm_record target_name "Running" spec_addresses]))
    (host_mode "unknown-name") (env_printing "out")
  = Ok ("{}" ++ String newline "").
Proof.
  apply (proj1 (unknown_host_prints_empty_mapping
           (decode_as "out" (listing [vm_record target_name "Running" spec_addresses]))
           (env_printing "out")
           (populated_inventory (JStr "192.168.64.10")
              "/home/user/jterrazz-infra/local-data/ssh/id_rsa")
           "unknown-name" eq_refl ltac:(discriminate))).
  reflexivity.
Defined.

(** C9: with both [--list] and [--host name] the program prints what
    [--list] alone prints, the whole document, which is not the host's
    sub-mapping. *)
Theorem list_flag_takes_precedence
    (json_loads : string -> result json) (env : Env) (name : string) :
  main json_loads (both_flags name) env = main json_loads list_mode env
  /\ (forall doc,
        get_inventory json_loads env = Ok doc ->
        main json_loads (both_flags name) env
        = Ok (json_dumps doc ++ String newline "")
        /\ main json_loads (both_flags name) env
           <> Ok (json_dumps (host_submapping doc name) ++ String newline "")).
Proof.
  split.
  - unfold main. now destruct (get_inventory json_loads env).
  - intros doc Hdoc.
    rewrite (main_list json_loads env (Some name) doc Hdoc : main _ (both_flags name) _ = _).
    split; [reflexivity|]. unfold stdout_of, host_submapping. intros H.
    injection H as H.
    destruct (submapping_cases json_loads env name doc Hdoc)
      as [[-> Hsub] | (ip & -> & [[_ Hsub] | [_ Hsub]])]; rewrite Hsub in H.
    + apply (f_equal (String.get 1)) in H. lazy in H. discriminate.
    + apply (f_equal (String.get 6)) in H. lazy in H. discriminate.
    + apply (f_equal (String.get 1)) in H. lazy in H. discriminate.
Qed.

Lemma list_flag_takes_precedence_witness :
  main (decode_as "{}" (JObj [])) (both_flags "jterrazz-infra")
    (env_raising CalledProcessError)
  = Ok (json_dumps base_inventory ++ String newline "")
  /\ main (decode_as "{}" (JObj [])) (both_flags "jterrazz-infra")
       (env_raising CalledProcessError)
     <> Ok (json_dumps (host_submapping base_inventory "jterrazz-infra")
              ++ String newline "").
Proof.
  apply (proj2 (list_flag_takes_precedence
           (decode_as "{}" (JObj [])) (env_raising CalledProcessError)
           "jterrazz-infra")).
  reflexivity.
Defined.

(** * Further properties of the script *)

(** ** What each step can raise *)

Lemma py_get_raises (obj : json) (key : string) (default : json) (e : exn) :
  py_get obj key default = Raise e -> e = AttributeError /\ ~ is_record obj.
Proof.
  destruct obj; simpl; intros [= <-]; (split; [reflexivity | intros [d Hd]; discriminate]).
Qed.

Lemma py_get_not_record (obj : json) (key : string) (default : json) :
  ~ is_record obj -> py_get obj key default = Raise AttributeError.
Proof.
  destruct obj; try reflexivity. intros H. elim H. now eexists.
Qed.

Lemma py_iter_raises (v : json) (e : exn) :
  py_iter v = Raise e -> e = TypeError /\ not_iterable v.
Proof.
  unfold not_iterable.
  destruct v; simpl; intros [= <-]; (split; [reflexivity|]);
    [now left | right; left; now eexists | right; right; now eexists].
Qed.

Lemma py_iter_not_iterable (v : json) :
  not_iterable v -> py_iter v = Raise TypeError.
Proof. now intros [-> | [[b ->] | [r ->]]]. Qed.

Lemma find_target_vm_raises (vms : list json) (e : exn) :
  find_target_vm vms = Raise e -> e = AttributeError.
Proof.
  induction vms as [|vm vms IH]; cbn [find_target_vm]; [discriminate|].
  destruct (py_get vm "name" JNull) as [name|e'] eqn:Hget; cbn [bind].
  - destruct (eq_str name target_name); [discriminate | exact IH].
  - intros [= <-]. now apply py_get_raises in Hget.
Qed.

Lemma find_vm_ip_raises (ips : list json) (e : exn) :
  find_vm_ip ips = Raise e -> e = AttributeError.
Proof.
  induction ips as [|ip ips IH]; cbn [find_vm_ip]; [discriminate|].
  destruct ip as [| | |s| |]; cbn [py_startswith bind];
    try (now intros [= <-]).
  destruct (existsb (startswith s) excluded_prefixes); cbn [negb];
    [exact IH | discriminate].
Qed.

(** ** [get_inventory] in parts *)

Lemma choose_address_eq (key_path : string) (ipv4 : json) :
  (ips <- py_iter ipv4 ;;
   vm_ip <- find_vm_ip ips ;;
   if truthy vm_ip then add_host base_inventory vm_ip key_path
   else Ok base_inventory)
  = choose_address key_path ipv4.
Proof. reflexivity. Qed.

Lemma resolve_target_none (key_path : string) :
  resolve_target key_path JNull = Ok base_inventory.
Proof. reflexivity. Qed.

Lemma resolve_target_named (key_path : string) (vm : json) :
  named_target vm ->
  resolve_target key_path vm
  = match field vm "state" with
    | Some state => if eq_str state "Running"
                    then choose_address key_path (ipv4_of vm)
                    else Ok base_inventory
    | None => Ok base_inventory
    end.
Proof.
  intros Hn. unfold resolve_target.
  rewrite (named_truthy vm Hn).
  rewrite (py_get_record vm "state" JNull (named_is_record vm Hn)).
  rewrite (py_get_record vm "ipv4" (JArr []) (named_is_record vm Hn)).
  cbn [bind]. fold (ipv4_of vm).
  destruct (field vm "state") as [state|]; [|reflexivity].
  destruct (eq_str state "Running"); reflexivity.
Qed.

Lemma resolve_target_running (key_path : string) (vm : json) :
  named_target vm -> is_running vm ->
  resolve_target key_path vm = choose_address key_path (ipv4_of vm).
Proof.
  intros Hn Hrun. rewrite (resolve_target_named key_path vm Hn).
  unfold is_running in Hrun. now rewrite Hrun.
Qed.

Lemma resolve_target_raises (key_path : string) (v : json) (e : exn) :
  resolve_target key_path v = Raise e -> e = AttributeError \/ e = TypeError.
Proof.
  unfold resolve_target.
  destruct (truthy v).
  - destruct (py_get v "state" JNull) as [state|e'] eqn:Hstate; cbn [bind].
    2:{ intros [= <-]. left. now apply py_get_raises in Hstate. }
    destruct (eq_str state "Running"); [|discriminate].
    destruct (py_get v "ipv4" (JArr [])) as [ipv4|e'] eqn:Hipv4; cbn [bind].
    2:{ intros [= <-]. left. now apply py_get_raises in Hipv4. }
    destruct (py_iter ipv4) as [ips|e'] eqn:Hiter; cbn [bind].
    2:{ intros [= <-]. right. now apply py_iter_raises in Hiter. }
    destruct (find_vm_ip ips) as [vm_ip|e'] eqn:Hip; cbn [bind].
    2:{ intros [= <-]. left. now apply find_vm_ip_raises in Hip. }
    destruct (truthy vm_ip); [rewrite add_host_base|]; discriminate.
  - cbn [bind]. discriminate.
Qed.

Section Parts.

Variable json_loads : string -> result json.
Variable env : Env.

Lemma get_inventory_unfold :
  get_inventory json_loads env
  = (multipass_data <- get_multipass_vm_info json_loads env ;;
     vm_list <- py_get multipass_data "list" (JArr []) ;;
     vms <- py_iter vm_list ;;
     target_vm <- find_target_vm vms ;;
     resolve_target (ssh_key_path env) target_vm).
Proof. reflexivity. Qed.

Lemma get_inventory_fetched (vms : list json) :
  fetches json_loads env vms ->
  get_inventory json_loads env
  = (target_vm <- find_target_vm vms ;; resolve_target (ssh_key_path env) target_vm).
Proof.
  intros [data [Hfetch Hlist]]. rewrite get_inventory_unfold.
  rewrite Hfetch. cbn [bind]. rewrite Hlist. reflexivity.
Qed.

Lemma get_inventory_target (pre post : list json) (vm : json) :
  fetches json_loads env (pre ++ vm :: post)%list ->
  Forall other_record pre -> named_target vm ->
  get_inventory json_loads env = resolve_target (ssh_key_path env) vm.
Proof.
  intros Hfetch Hpre Hn. rewrite (get_inventory_fetched _ Hfetch).
  rewrite find_target_vm_skip by assumption.
  now rewrite (find_target_vm_hit vm post Hn).
Qed.

Lemma main_of_inventory (args : Namespace) (r : result json) :
  get_inventory json_loads env = r ->
  main json_loads args env
  = (inventory <- r ;;
     if args_list args then print (json_dumps inventory)
     else if host_given args then
       meta <- py_get inventory "_meta" (JObj []) ;;
       all_hostvars <- py_get meta "hostvars" (JObj []) ;;
       hostvars <- py_get all_hostvars (host_name args) (JObj []) ;;
       print (json_dumps hostvars)
     else print (json_dumps inventory)).
Proof. now intros <-. Qed.

End Parts.

(** ** The fetch, further *)

(** X1: [get_multipass_vm_info] never raises CalledProcessError,
    JSONDecodeError or FileNotFoundError; an exception it raises is one
    the command's launch or the decoding of its output raised. *)
Theorem fetch_raises_only_unhandled
    (json_loads : string -> result json) (env : Env) (e : exn) :
  get_multipass_vm_info json_loads env = Raise e ->
  e <> CalledProcessError /\ e <> JSONDecodeError /\ e <> FileNotFoundError
  /\ (subprocess_run env = Raise e
      \/ exists stdout, subprocess_run env = Ok stdout
                     /\ json_loads stdout = Raise e).
Proof.
  unfold get_multipass_vm_info, try_except.
  destruct (subprocess_run env) as [stdout|e1] eqn:Hrun; cbn [bind].
  - destruct (json_loads stdout) as [v|e2] eqn:Hdec; [discriminate|].
    destruct (in_dec exn_eq_dec e2 _) as [_|Hnot]; [discriminate|].
    intros [= <-]. cbn [In] in Hnot.
    repeat split; try (intros ->; apply Hnot; tauto).
    right. now exists stdout.
  - destruct (in_dec exn_eq_dec e1 _) as [_|Hnot]; [discriminate|].
    intros [= <-]. cbn [In] in Hnot.
    repeat split; try (intros ->; apply Hnot; tauto).
    now left.
Qed.

Lemma fetch_raises_only_unhandled_witness :
  PermissionError <> CalledProcessError /\ PermissionError <> JSONDecodeError
  /\ PermissionError <> FileNotFoundError
  /\ (subprocess_run (env_raising PermissionError) = Raise PermissionError
      \/ exists stdout, subprocess_run (env_raising PermissionError) = Ok stdout
                     /\ decode_as "{}" (JObj []) stdout = Raise PermissionError).
Proof.
  apply (fetch_raises_only_unhandled (decode_as "{}" (JObj []))
           (env_raising PermissionError) PermissionError).
  reflexivity.
Defined.

(** X2: output that decodes to a value other than a mapping (a list, a
    string, a number, null) is returned by the fetch as it is; then
    [get_inventory] raises AttributeError, and so does [main] under every
    combination of flags. *)
Theorem non_mapping_output_raises
    (json_loads : string -> result json) (env : Env) (stdout : string) (data : json) :
  subprocess_run env = Ok stdout ->
  json_loads stdout = Ok data ->
  ~ is_record data ->
  get_multipass_vm_info json_loads env = Ok data
  /\ get_inventory json_loads env = Raise AttributeError
  /\ forall args, main json_loads args env = Raise AttributeError.
Proof.
  intros Hrun Hdec Hnot.
  assert (Hfetch : get_multipass_vm_info json_loads env = Ok data).
  { unfold get_multipass_vm_info. rewrite Hrun. cbn [bind]. now rewrite Hdec. }
  assert (Hinv : get_inventory json_loads env = Raise AttributeError).
  { rewrite get_inventory_unfold, Hfetch. cbn [bind].
    now rewrite (py_get_not_record data "list" (JArr []) Hnot). }
  split; [exact Hfetch|]. split; [exact Hinv|].
  intros args. now rewrite (main_of_inventory json_loads env args _ Hinv).
Qed.

Lemma non_mapping_output_raises_witness :
  get_multipass_vm_info (decode_as "[]" (JArr [])) (env_printing "[]") = Ok (JArr [])
  /\ get_inventory (decode_as "[]" (JArr [])) (env_printing "[]") = Raise AttributeError
  /\ forall args, main (decode_as "[]" (JArr [])) args (env_printing "[]")
                  = Raise AttributeError.
Proof.
  apply (non_mapping_output_raises (decode_as "[]" (JArr [])) (env_printing "[]")
           "[]" (JArr [])).
  - reflexivity.
  - reflexivity.
  - intros [d Hd]. discriminate.
Defined.

(** X3: for a fetched mapping, what [get_inventory] does with the value
    under [list]: with no such key, or an empty string or an empty mapping
    under it, it returns the empty inventory document; with null, a
    boolean or a number it raises TypeError; with a non-empty string or a
    non-empty mapping it raises AttributeError, as the loop then runs over
    strings. *)
Theorem list_value_kinds
    (json_loads : string -> result json) (env : Env) (d : dict) :
  get_multipass_vm_info json_loads env = Ok (JObj d) ->
  (dict_get "list" d = None
   \/ dict_get "list" d = Some (JStr "")
   \/ dict_get "list" d = Some (JObj []) ->
   get_inventory json_loads env = Ok base_inventory)
  /\ (forall v, dict_get "list" d = Some v -> not_iterable v ->
        get_inventory json_loads env = Raise TypeError)
  /\ (forall c s, dict_get "list" d = Some (JStr (String c s)) ->
        get_inventory json_loads env = Raise AttributeError)
  /\ (forall kv rest, dict_get "list" d = Some (JObj (kv :: rest)) ->
        get_inventory json_loads env = Raise AttributeError).
Proof.
  intros Hfetch. rewrite get_inventory_unfold, Hfetch. cbn [bind py_get].
  split; [|split; [|split]].
  - intros [H | [H | H]]; now rewrite H.
  - intros v H Hv. rewrite H. cbn [bind]. now rewrite (py_iter_not_iterable v Hv).
  - intros c s H. now rewrite H.
  - intros kv rest H. now rewrite H.
Qed.

Lemma list_value_kinds_witness :
  get_inventory (decode_as "out" (JObj [("info", JObj [])])) (env_printing "out")
    = Ok base_inventory
  /\ get_inventory (decode_as "out" (JObj [("list", JNull)])) (env_printing "out")
    = Raise TypeError
  /\ get_inventory (decode_as "out" (JObj [("list", JStr "none")])) (env_printing "out")
    = Raise AttributeError
  /\ get_inventory
       (decode_as "out" (JObj [("list", JObj [("jterrazz-infra", JObj [])])]))
       (env_printing "out")
    = Raise AttributeError.
Proof.
  split; [|split; [|split]].
  - apply (proj1 (list_value_kinds (decode_as "out" (JObj [("info", JObj [])]))
                    (env_printing "out") [("info", JObj [])] eq_refl)).
    left. reflexivity.
  - apply (proj1 (proj2 (list_value_kinds (decode_as "out" (JObj [("list", JNull)]))
                    (env_printing "out") [("list", JNull)] eq_refl)) JNull).
    + reflexivity.
    + left. reflexivity.
  - apply (proj1 (proj2 (proj2 (list_value_kinds
                    (decode_as "out" (JObj [("list", JStr "none")]))
                    (env_printing "out") [("list", JStr "none")] eq_refl)))
             "n"%char "one").
    reflexivity.
  - apply (proj2 (proj2 (proj2 (list_value_kinds
                    (decode_as "out" (JObj [("list", JObj [("jterrazz-infra", JObj [])])]))
                    (env_printing "out")
                    [("list", JObj [("jterrazz-infra", JObj [])])] eq_refl)))
             ("jterrazz-infra", JObj []) []).
    reflexivity.
Defined.

(** ** The first loop, further *)

Lemma find_target_vm_tail (pre post post' : list json) (vm : json) :
  named_target vm ->
  find_target_vm (pre ++ vm :: post)%list = find_target_vm (pre ++ vm :: post')%list.
Proof.
  intros Hn. induction pre as [|x pre IH]; cbn [app].
  - now rewrite !find_target_vm_hit.
  - cbn [find_target_vm]. destruct (py_get x "name" JNull); cbn [bind]; [|reflexivity].
    now destruct (eq_str _ target_name).
Qed.

Lemma find_target_vm_not_record (pre post : list json) (x : json) :
  Forall other_record pre -> ~ is_record x ->
  find_target_vm (pre ++ x :: post)%list = Raise AttributeError.
Proof.
  intros Hpre Hx. rewrite find_target_vm_skip by assumption.
  cbn [find_target_vm]. now rewrite (py_get_not_record x "name" JNull Hx).
Qed.

Lemma ssh_key_path_script (env env' : Env) :
  script_file env = script_file env' -> ssh_key_path env = ssh_key_path env'.
Proof.
  intros H. unfold ssh_key_path, get_project_root. now rewrite H.
Qed.

(** X4: the first record named "jterrazz-infra" decides; the records
    after it are not examined, so two fetched lists that agree up to that
    record give the same result for a script at the same place, whatever
    follows the record. *)
Theorem records_after_target_ignored
    (json_loads json_loads' : string -> result json) (env env' : Env)
    (pre post post' : list json) (vm : json) :
  fetches json_loads env (pre ++ vm :: post)%list ->
  fetches json_loads' env' (pre ++ vm :: post')%list ->
  script_file env = script_file env' ->
  named_target vm ->
  get_inventory json_loads env = get_inventory json_loads' env'.
Proof.
  intros Hfetch Hfetch' Hscript Hn.
  rewrite (get_inventory_fetched json_loads env _ Hfetch).
  rewrite (get_inventory_fetched json_loads' env' _ Hfetch').
  rewrite (find_target_vm_tail pre post post' vm Hn).
  now rewrite (ssh_key_path_script env env' Hscript).
Qed.

Lemma records_after_target_ignored_witness :
  get_inventory
    (decode_as "out" (listing [vm_record target_name "Stopped" [];
                               vm_record target_name "Running" spec_addresses;
                               JNum "7"]))
    (env_printing "out")
  = get_inventory
      (decode_as "short" (listing [vm_record target_name "Stopped" []]))
      (env_printing "short").
Proof.
  apply (records_after_target_ignored _ _ _ _ []
           [vm_record target_name "Running" spec_addresses; JNum "7"] []
           (vm_record target_name "Stopped" [])).
  - apply fetches_decoded.
  - apply fetches_decoded.
  - reflexivity.
  - reflexivity.
Defined.

(** X5: a list element that is not a mapping, met before any record named
    "jterrazz-infra", makes [get_inventory] raise AttributeError, also when
    a running target follows it; [main] then raises under every
    combination of flags. *)
Theorem non_mapping_record_raises
    (json_loads : string -> result json) (env : Env)
    (pre post : list json) (x : json) :
  fetches json_loads env (pre ++ x :: post)%list ->
  Forall other_record pre -> ~ is_record x ->
  get_inventory json_loads env = Raise AttributeError
  /\ forall args, main json_loads args env = Raise AttributeError.
Proof.
  intros Hfetch Hpre Hx.
  assert (Hinv : get_inventory json_loads env = Raise AttributeError).
  { rewrite (get_inventory_fetched json_loads env _ Hfetch).
    now rewrite (find_target_vm_not_record pre post x Hpre Hx). }
  split; [exact Hinv|].
  intros args. now rewrite (main_of_inventory json_loads env args _ Hinv).
Qed.

Lemma non_mapping_record_raises_witness :
  get_inventory
    (decode_as "out" (listing [JStr "primary";
                               vm_record target_name "Running" spec_addresses]))
    (env_printing "out") = Raise AttributeError
  /\ forall args,
       main (decode_as "out" (listing [JStr "primary";
                                       vm_record target_name "Running" spec_addresses]))
         args (env_printing "out") = Raise AttributeError.
Proof.
  apply (non_mapping_record_raises _ _ []
           [vm_record target_name "Running" spec_addresses] (JStr "primary")).
  - apply fetches_decoded.
  - apply Forall_nil.
  - intros [d Hd]. discriminate.
Defined.

(** ** The second loop, further *)

Lemma short_text_not_excluded (c : ascii) :
  existsb (startswith (String c "")) excluded_prefixes = false.
Proof.
  cbn [existsb excluded_prefixes startswith]. now rewrite !andb_false_r.
Qed.

Section RunningTarget.

Variable json_loads : string -> result json.
Variable env : Env.
Variables pre post : list json.
Variable vm : json.

Hypothesis Hfetch : fetches json_loads env (pre ++ vm :: post)%list.
Hypothesis Hpre : Forall other_record pre.
Hypothesis Hnamed : named_target vm.
Hypothesis Hrunning : is_running vm.

Lemma get_inventory_by_address :
  get_inventory json_loads env = choose_address (ssh_key_path env) (ipv4_of vm).
Proof.
  rewrite (get_inventory_target json_loads env pre post vm Hfetch Hpre Hnamed).
  now apply resolve_target_running.
Qed.

End RunningTarget.

(** X6: the second loop stops at the first address that qualifies: what
    follows it in [ipv4] is not examined, whatever it is.  For a running
    target whose [ipv4] holds excluded addresses, then an address that is
    not excluded and not empty, the host is added under that address. *)
Theorem addresses_after_choice_ignored
    (json_loads : string -> result json) (env : Env)
    (pre post : list json) (vm : json)
    (ips_pre : list string) (ip : string) (tail : list json) :
  fetches json_loads env (pre ++ vm :: post)%list ->
  Forall other_record pre -> named_target vm -> is_running vm ->
  field vm "ipv4" = Some (JArr (map JStr ips_pre ++ JStr ip :: tail)%list) ->
  Forall excluded ips_pre -> ~ excluded ip -> ip <> "" ->
  get_inventory json_loads env
  = Ok (populated_inventory (JStr ip) (ssh_key_path env)).
Proof.
  intros Hfetch Hpre Hn Hrun Hipv4 Hex Hip Hne.
  rewrite (get_inventory_by_address json_loads env pre post vm Hfetch Hpre Hn Hrun).
  unfold ipv4_of, choose_address. rewrite Hipv4. cbn [py_iter bind].
  rewrite find_vm_ip_skip by assumption.
  rewrite (find_vm_ip_hit ip tail Hip). cbn [bind].
  apply truthy_str in Hne. now rewrite Hne.
Qed.

Lemma addresses_after_choice_ignored_witness :
  get_inventory
    (decode_as "out" (listing [JObj [("name", JStr target_name);
                                     ("state", JStr "Running");
                                     ("ipv4", JArr [JStr "10.42.0.5";
                                                    JStr "192.168.64.10";
                                                    JNull; JNum "4"])]]))
    (env_printing "out")
  = Ok (populated_inventory (JStr "192.168.64.10")
          (ssh_key_path (env_printing "out"))).
Proof.
  apply (addresses_after_choice_ignored _ _ [] []
           (JObj [("name", JStr target_name); ("state", JStr "Running");
                  ("ipv4", JArr [JStr "10.42.0.5"; JStr "192.168.64.10";
                                 JNull; JNum "4"])])
           ["10.42.0.5"] "192.168.64.10" [JNull; JNum "4"]).
  - apply fetches_decoded.
  - apply Forall_nil.
  - reflexivity.
  - reflexivity.
  - reflexivity.
  - apply Forall_cons; [apply excluded_by_test; reflexivity | apply Forall_nil].
  - apply not_excluded_by_test. reflexivity.
  - discriminate.
Defined.

(** X7: for a running target, an [ipv4] that is null, a boolean or a
    number makes [get_inventory] raise TypeError, and an element of [ipv4]
    that is not a string, met before any address that qualifies, makes it
    raise AttributeError. *)
Theorem ill_typed_addresses_raise
    (json_loads : string -> result json) (env : Env)
    (pre post : list json) (vm : json) :
  fetches json_loads env (pre ++ vm :: post)%list ->
  Forall other_record pre -> named_target vm -> is_running vm ->
  (forall v, field vm "ipv4" = Some v -> not_iterable v ->
     get_inventory json_loads env = Raise TypeError)
  /\ (forall ips_pre x tail,
        field vm "ipv4" = Some (JArr (map JStr ips_pre ++ x :: tail)%list) ->
        Forall excluded ips_pre -> ~ is_str x ->
        get_inventory json_loads env = Raise AttributeError).
Proof.
  intros Hfetch Hpre Hn Hrun.
  rewrite (get_inventory_by_address json_loads env pre post vm Hfetch Hpre Hn Hrun).
  unfold ipv4_of, choose_address. split.
  - intros v Hv Hnot. rewrite Hv. now rewrite (py_iter_not_iterable v Hnot).
  - intros ips_pre x tail Hv Hex Hx. rewrite Hv. cbn [py_iter bind].
    rewrite find_vm_ip_skip by assumption. cbn [find_vm_ip].
    destruct x; try reflexivity. elim Hx. now eexists.
Qed.

Lemma ill_typed_addresses_raise_witness :
  get_inventory
    (decode_as "out" (listing [JObj [("name", JStr target_name);
                                     ("state", JStr "Running");
                                     ("ipv4", JNull)]]))
    (env_printing "out") = Raise TypeError
  /\ get_inventory
       (decode_as "out" (listing [JObj [("name", JStr target_name);
                                        ("state", JStr "Running");
                                        ("ipv4", JArr [JStr "127.0.0.1"; JNull;
                                                       JStr "192.168.64.10"])]]))
       (env_printing "out") = Raise AttributeError.
Proof.
  split.
  - apply (proj1 (ill_typed_addresses_raise _ _ [] []
             (JObj [("name", JStr target_name); ("state", JStr "Running");
                    ("ipv4", JNull)])
             (fetches_decoded _ _) (Forall_nil _) eq_refl eq_refl) JNull).
    + reflexivity.
    + left. reflexivity.
  - apply (proj2 (ill_typed_addresses_raise _ _ [] []
             (JObj [("name", JStr target_name); ("state", JStr "Running");
                    ("ipv4", JArr [JStr "127.0.0.1"; JNull; JStr "192.168.64.10"])])
             (fetches_decoded _ _) (Forall_nil _) eq_refl eq_refl)
             ["127.0.0.1"] JNull [JStr "192.168.64.10"]).
    + reflexivity.
    + apply Forall_cons; [apply excluded_by_test; reflexivity | apply Forall_nil].
    + intros [s Hs]. discriminate.
Defined.

(** X8: when [ipv4] of a running target is a non-empty string instead of
    a list, the loop runs over its characters, and the host is added with
    the first character alone as its address. *)
Theorem text_address_yields_first_character
    (json_loads : string -> result json) (env : Env)
    (pre post : list json) (vm : json) (c : ascii) (rest : string) :
  fetches json_loads env (pre ++ vm :: post)%list ->
  Forall other_record pre -> named_target vm -> is_running vm ->
  field vm "ipv4" = Some (JStr (String c rest)) ->
  get_inventory json_loads env
  = Ok (populated_inventory (JStr (String c "")) (ssh_key_path env)).
Proof.
  intros Hfetch Hpre Hn Hrun Hipv4.
  rewrite (get_inventory_by_address json_loads env pre post vm Hfetch Hpre Hn Hrun).
  unfold ipv4_of, choose_address. rewrite Hipv4.
  cbn [py_iter list_ascii_of_string map bind find_vm_ip py_startswith].
  now rewrite short_text_not_excluded.
Qed.

Lemma text_address_yields_first_character_witness :
  get_inventory
    (decode_as "out" (listing [JObj [("name", JStr target_name);
                                     ("state", JStr "Running");
                                     ("ipv4", JStr "192.168.64.10")]]))
    (env_printing "out")
  = Ok (populated_inventory (JStr "1") (ssh_key_path (env_printing "out"))).
Proof.
  apply (text_address_yields_first_character _ _ [] []
           (JObj [("name", JStr target_name); ("state", JStr "Running");
                  ("ipv4", JStr "192.168.64.10")])
           "1"%char "92.168.64.10").
  - apply fetches_decoded.
  - apply Forall_nil.
  - reflexivity.
  - reflexivity.
  - reflexivity.
Defined.

(** ** From the document back to the fetched list *)

Lemma find_target_vm_inv (vms : list json) (v : json) :
  find_target_vm vms = Ok v ->
  (v = JNull /\ Forall other_record vms)
  \/ exists pre post,
       vms = (pre ++ v :: post)%list /\ Forall other_record pre /\ named_target v.
Proof.
  induction vms as [|vm vms IH]; cbn [find_target_vm].
  - intros [= <-]. left. split; [reflexivity | apply Forall_nil].
  - destruct (py_get vm "name" JNull) as [name|e] eqn:Hget; cbn [bind]; [|discriminate].
    assert (Hrec : is_record vm).
    { destruct vm; try discriminate. now eexists. }
    destruct (name_test vm Hrec) as [name' [Hget' Htest]].
    rewrite Hget in Hget'. injection Hget' as <-.
    destruct (eq_str name target_name) eqn:E.
    + intros [= <-]. right. exists [], vms.
      split; [reflexivity|]. split; [apply Forall_nil | now apply Htest].
    + assert (Hother : other_record vm).
      { split; [exact Hrec|]. intros Hn. apply Htest in Hn. congruence. }
      intros Hfind. destruct (IH Hfind) as [[-> Hall] | (pre & post & -> & Hpre & Hn)].
      * left. split; [reflexivity | now apply Forall_cons].
      * right. exists (vm :: pre), post.
        split; [reflexivity|]. split; [now apply Forall_cons | exact Hn].
Qed.

Lemma find_vm_ip_inv (ips : list json) (v : json) :
  find_vm_ip ips = Ok v ->
  (v = JNull /\ exists ss, ips = map JStr ss /\ Forall excluded ss)
  \/ exists ss ip tail,
       ips = (map JStr ss ++ JStr ip :: tail)%list
       /\ Forall excluded ss /\ ~ excluded ip /\ v = JStr ip.
Proof.
  induction ips as [|x ips IH]; cbn [find_vm_ip].
  - intros [= <-]. left. split; [reflexivity|]. exists []. split; [reflexivity | apply Forall_nil].
  - destruct x as [| | |s| |]; cbn [py_startswith bind]; try discriminate.
    destruct (existsb (startswith s) excluded_prefixes) eqn:E; cbn [negb].
    + apply excluded_spec in E. intros Hfind.
      destruct (IH Hfind) as [[-> (ss & -> & Hss)] | (ss & ip & tail & -> & Hss & Hip & ->)].
      * left. split; [reflexivity|]. exists (s :: ss).
        split; [reflexivity | now apply Forall_cons].
      * right. exists (s :: ss), ip, tail.
        split; [reflexivity|]. split; [now apply Forall_cons | now split].
    + apply not_excluded_spec in E. intros [= <-]. right. exists [], s, ips.
      split; [reflexivity|]. split; [apply Forall_nil | now split].
Qed.

(** X9: the host is listed only for a reason found in the fetched list.
    When the document lists "jterrazz-infra" under [development.hosts],
    the list holds a first record of that name, its state is "Running",
    and the address in the document is the first one of its [ipv4] that is
    not excluded; that address is not empty. *)
Theorem listed_host_has_a_running_record
    (json_loads : string -> result json) (env : Env) (vms : list json) (doc : json) :
  fetches json_loads env vms ->
  get_inventory json_loads env = Ok doc ->
  at2 doc "development" "hosts" = Some (JArr [JStr "jterrazz-infra"]) ->
  exists pre vm post ips_pre ip tail,
    vms = (pre ++ vm :: post)%list
    /\ Forall other_record pre /\ named_target vm /\ is_running vm
    /\ py_iter (ipv4_of vm) = Ok (map JStr ips_pre ++ JStr ip :: tail)%list
    /\ Forall excluded ips_pre /\ ~ excluded ip /\ ip <> ""
    /\ doc = populated_inventory (JStr ip) (ssh_key_path env).
Proof.
  intros Hfetch Hdoc Hhosts.
  rewrite (get_inventory_fetched json_loads env vms Hfetch) in Hdoc.
  destruct (find_target_vm vms) as [target_vm|] eqn:Hfind; cbn [bind] in Hdoc;
    [|discriminate].
  destruct (find_target_vm_inv vms target_vm Hfind)
    as [[-> _] | (pre & post & -> & Hpre & Hn)].
  { rewrite resolve_target_none in Hdoc. injection Hdoc as <-. discriminate. }
  rewrite (resolve_target_named _ _ Hn) in Hdoc.
  destruct (field target_vm "state") as [state|] eqn:Hstate;
    [|injection Hdoc as <-; discriminate].
  destruct (eq_str state "Running") eqn:E; [|injection Hdoc as <-; discriminate].
  apply eq_str_true in E. subst state.
  unfold choose_address in Hdoc.
  destruct (py_iter (ipv4_of target_vm)) as [ips|] eqn:Hiter; cbn [bind] in Hdoc;
    [|discriminate].
  destruct (find_vm_ip ips) as [vm_ip|] eqn:Hip; cbn [bind] in Hdoc; [|discriminate].
  destruct (truthy vm_ip) eqn:Ht; [|injection Hdoc as <-; discriminate].
  injection Hdoc as <-.
  destruct (find_vm_ip_inv ips vm_ip Hip)
    as [[-> _] | (ss & ip & tail & -> & Hss & Hex & ->)]; [discriminate|].
  exists pre, target_vm, post, ss, ip, tail.
  repeat split; try assumption. now apply truthy_str.
Qed.

Lemma listed_host_has_a_running_record_witness :
  exists pre vm post ips_pre ip tail,
    [vm_record "primary" "Running" ["192.168.64.2"];
     vm_record target_name "Running" spec_addresses]
    = (pre ++ vm :: post)%list
    /\ Forall other_record pre /\ named_target vm /\ is_running vm
    /\ py_iter (ipv4_of vm) = Ok (map JStr ips_pre ++ JStr ip :: tail)%list
    /\ Forall excluded ips_pre /\ ~ excluded ip /\ ip <> ""
    /\ populated_inventory (JStr "192.168.64.10")
         "/home/user/jterrazz-infra/local-data/ssh/id_rsa"
       = populated_inventory (JStr ip) (ssh_key_path (env_printing "out")).
Proof.
  apply (listed_host_has_a_running_record
           (decode_as "out" (listing [vm_record "primary" "Running" ["192.168.64.2"];
                                      vm_record target_name "Running" spec_addresses]))
           (env_printing "out")).
  - apply fetches_decoded.
  - reflexivity.
  - reflexivity.
Defined.

(** ** Exceptions of the whole program *)

(** X10: apart from what the fetch itself raises, [get_inventory] raises
    nothing but AttributeError and TypeError; the assignments of the
    success branch never fail. *)
Theorem get_inventory_raises_only
    (json_loads : string -> result json) (env : Env) (e : exn) :
  get_inventory json_loads env = Raise e ->
  get_multipass_vm_info json_loads env = Raise e
  \/ e = AttributeError \/ e = TypeError.
Proof.
  rewrite get_inventory_unfold.
  destruct (get_multipass_vm_info json_loads env) as [data|e0]; cbn [bind].
  2:{ intros [= <-]. now left. }
  intros H. right.
  destruct (py_get data "list" (JArr [])) as [vm_list|e1] eqn:Hget; cbn [bind] in H.
  2:{ injection H as <-. left. now apply py_get_raises in Hget. }
  destruct (py_iter vm_list) as [vms|e1] eqn:Hiter; cbn [bind] in H.
  2:{ injection H as <-. right. now apply py_iter_raises in Hiter. }
  destruct (find_target_vm vms) as [target_vm|e1] eqn:Hfind; cbn [bind] in H.
  2:{ injection H as <-. left. now apply find_target_vm_raises in Hfind. }
  now apply resolve_target_raises in H.
Qed.

Lemma get_inventory_raises_only_witness :
  get_multipass_vm_info (decode_as "out" (JObj [("list", JBool true)]))
    (env_printing "out") = Raise TypeError
  \/ TypeError = AttributeError \/ TypeError = TypeError.
Proof.
  apply (get_inventory_raises_only (decode_as "out" (JObj [("list", JBool true)]))
           (env_printing "out") TypeError).
  reflexivity.
Defined.

Section MainReturns.

Variable json_loads : string -> result json.
Variable env : Env.

Lemma main_returns (args : Namespace) (doc : json) :
  get_inventory json_loads env = Ok doc ->
  exists out, main json_loads args env = Ok out.
Proof.
  intros Hdoc. destruct args as [l [name|]]; destruct l.
  - eexists. apply (main_list json_loads env (Some name) doc Hdoc).
  - destruct (String.eqb_spec name "") as [->|Hne].
    + eexists. unfold main. rewrite Hdoc. reflexivity.
    + eexists. apply (main_host json_loads env name doc Hdoc Hne).
  - eexists. apply (main_list json_loads env None doc Hdoc).
  - eexists. apply (main_no_flags json_loads env doc Hdoc).
Qed.

End MainReturns.

(** X11: [main] adds no failure of its own: under every combination of
    flags it raises exactly when [get_inventory] raises, and the same
    exception; the lookups of the [--host] branch never fail. *)
Theorem main_raises_with_get_inventory
    (json_loads : string -> result json) (env : Env) (args : Namespace) (e : exn) :
  main json_loads args env = Raise e <-> get_inventory json_loads env = Raise e.
Proof.
  split.
  - intros Hmain.
    destruct (get_inventory json_loads env) as [doc|e'] eqn:Hinv.
    + destruct (main_returns json_loads env args doc Hinv) as [out Hout].
      congruence.
    + rewrite (main_raises json_loads env args e' Hinv) in Hmain.
      now injection Hmain as ->.
  - apply main_raises.
Qed.

(** ** What the document depends on *)

Lemma resolve_same_fields (key_path : string) (vm vm' : json) (post : list json) :
  is_record vm -> is_record vm' ->
  field vm "name" = field vm' "name" ->
  field vm "state" = field vm' "state" ->
  field vm "ipv4" = field vm' "ipv4" ->
  (t <- find_target_vm (vm :: post) ;; resolve_target key_path t)
  = (t <- find_target_vm (vm' :: post) ;; resolve_target key_path t).
Proof.
  intros Hrec Hrec' Hname Hstate Hipv4.
  destruct (name_test vm Hrec) as [name [Hget Htest]].
  destruct (name_test vm' Hrec') as [name' [Hget' Htest']].
  assert (Heq : name = name').
  { rewrite (py_get_record _ _ _ Hrec) in Hget.
    rewrite (py_get_record _ _ _ Hrec') in Hget'.
    rewrite Hname in Hget. congruence. }
  subst name'. cbn [find_target_vm]. rewrite Hget, Hget'. cbn [bind].
  destruct (eq_str name target_name) eqn:E; [|reflexivity].
  cbn [bind].
  rewrite (resolve_target_named key_path vm (proj1 Htest eq_refl)).
  rewrite (resolve_target_named key_path vm' (proj1 Htest' eq_refl)).
  unfold ipv4_of. now rewrite Hstate, Hipv4.
Qed.

Lemma resolve_same_fields_at (key_path : string) (pre post : list json)
    (vm vm' : json) :
  is_record vm -> is_record vm' ->
  field vm "name" = field vm' "name" ->
  field vm "state" = field vm' "state" ->
  field vm "ipv4" = field vm' "ipv4" ->
  (t <- find_target_vm (pre ++ vm :: post)%list ;; resolve_target key_path t)
  = (t <- find_target_vm (pre ++ vm' :: post)%list ;; resolve_target key_path t).
Proof.
  intros Hrec Hrec' Hname Hstate Hipv4.
  induction pre as [|x pre IH]; cbn [app].
  - now apply resolve_same_fields.
  - cbn [find_target_vm].
    destruct (py_get x "name" JNull) as [name|]; cbn [bind]; [|reflexivity].
    destruct (eq_str name target_name); [reflexivity | exact IH].
Qed.

(** X12: of a record, [get_inventory] reads [name], [state] and [ipv4]
    only: two fetched lists that differ in one record, the two versions of
    it agreeing on these three keys, give the same result for a script at
    the same place. *)
Theorem only_three_keys_are_read
    (json_loads json_loads' : string -> result json) (env env' : Env)
    (pre post : list json) (vm vm' : json) :
  fetches json_loads env (pre ++ vm :: post)%list ->
  fetches json_loads' env' (pre ++ vm' :: post)%list ->
  script_file env = script_file env' ->
  is_record vm -> is_record vm' ->
  field vm "name" = field vm' "name" ->
  field vm "state" = field vm' "state" ->
  field vm "ipv4" = field vm' "ipv4" ->
  get_inventory json_loads env = get_inventory json_loads' env'.
Proof.
  intros Hfetch Hfetch' Hscript Hrec Hrec' Hname Hstate Hipv4.
  rewrite (get_inventory_fetched json_loads env _ Hfetch).
  rewrite (get_inventory_fetched json_loads' env' _ Hfetch').
  rewrite <- (ssh_key_path_script env env' Hscript).
  now apply resolve_same_fields_at.
Qed.

Lemma only_three_keys_are_read_witness :
  get_inventory
    (decode_as "out" (listing [JObj [("ipv4", JArr [JStr "192.168.64.10"]);
                                     ("name", JStr target_name);
                                     ("release", JStr "Ubuntu 22.04 LTS");
                                     ("state", JStr "Running")]]))
    (env_printing "out")
  = get_inventory
      (decode_as "plain" (listing [vm_record target_name "Running" ["192.168.64.10"]]))
      (env_printing "plain").
Proof.
  apply (only_three_keys_are_read _ _ _ _ [] []
           (JObj [("ipv4", JArr [JStr "192.168.64.10"]);
                  ("name", JStr target_name);
                  ("release", JStr "Ubuntu 22.04 LTS");
                  ("state", JStr "Running")])
           (vm_record target_name "Running" ["192.168.64.10"])).
  - apply fetches_decoded.
  - apply fetches_decoded.
  - reflexivity.
  - now eexists.
  - now eexists.
  - reflexivity.
  - reflexivity.
  - reflexivity.
Defined.

Lemma main_raises_with_get_inventory_witness :
  main (decode_as "[]" (JArr [])) (host_mode "jterrazz-infra") (env_printing "[]")
  = Raise AttributeError.
Proof.
  apply (proj2 (main_raises_with_get_inventory (decode_as "[]" (JArr []))
                  (env_printing "[]") (host_mode "jterrazz-infra") AttributeError)).
  reflexivity.
Defined.

(** ** The project root near the top of the file system *)

Lemma dirname_top : dirname "/" = "/".
Proof. reflexivity. Qed.

Lemma dirname_top_child (c : string) : no_sep c -> dirname (child "" c) = "/".
Proof. intros Hc. now rewrite dirname_child. Qed.

Lemma drop_while_stuck (r : list ascii) :
  forallb is_sep r = true -> drop_while (fun c => negb (is_sep c)) r = r.
Proof.
  destruct r as [|x r]; [reflexivity|]. cbn [forallb drop_while].
  intros H. apply andb_true_iff in H as [Hx _]. now rewrite Hx.
Qed.

Lemma dirname_under_top (top c : string) :
  all_sep top -> no_sep c -> dirname (top ++ c) = top.
Proof.
  unfold all_sep, no_sep. intros Htop Hc. unfold dirname. cbv zeta.
  rewrite list_ascii_of_string_app, rev_app_distr.
  rewrite drop_while_app by (now rewrite forallb_rev).
  rewrite drop_while_stuck by (now rewrite forallb_rev).
  rewrite forallb_rev, Htop, rev_involutive.
  apply string_of_list_ascii_of_string.
Qed.

Lemma dirname_of_top (top : string) : all_sep top -> dirname top = top.
Proof.
  unfold all_sep. intros Htop. unfold dirname. cbv zeta.
  rewrite drop_while_stuck by (now rewrite forallb_rev).
  rewrite forallb_rev, Htop, rev_involutive.
  apply string_of_list_ascii_of_string.
Qed.

Lemma endswith_sep_app (a c : string) :
  no_sep c -> c <> "" -> endswith_sep (a ++ c) = false.
Proof.
  intros Hc Hne. unfold endswith_sep.
  rewrite list_ascii_of_string_app, rev_app_distr.
  unfold no_sep in Hc. rewrite <- forallb_rev in Hc.
  destruct (rev (list_ascii_of_string c)) as [|ch t] eqn:E.
  - apply (f_equal (@List.length ascii)) in E. rewrite length_rev in E.
    destruct c; [congruence | discriminate].
  - cbn [app]. cbn [forallb] in Hc. apply andb_true_iff in Hc as [Hch _].
    now apply negb_true_iff in Hch.
Qed.

Lemma app_not_empty (a c : string) : c <> "" -> String.eqb (a ++ c) "" = false.
Proof.
  intros Hne. rewrite eqb_empty. destruct a; [|reflexivity].
  destruct c; [congruence | reflexivity].
Qed.

Lemma endswith_sep_top (top : string) :
  all_sep top -> top <> "" -> endswith_sep top = true.
Proof.
  unfold all_sep, endswith_sep. intros Htop Hne. rewrite <- forallb_rev in Htop.
  destruct (rev (list_ascii_of_string top)) as [|ch t] eqn:E.
  - apply (f_equal (@List.length ascii)) in E. rewrite length_rev in E.
    destruct top; [congruence | discriminate].
  - cbn [forallb] in Htop. now apply andb_true_iff in Htop as [Hch _].
Qed.

(** X13: the walk up stops at the top of the file system, which is the run
    of slashes an absolute path begins with ("/", or "//" where the path
    keeps two).  For a script fewer than three directories below it, the
    project root is that run of slashes and the key path is
    [local-data/ssh/id_rsa] right after it: "/" and /local-data/ssh/id_rsa
    for a path with one leading slash, "//" and //local-data/ssh/id_rsa for
    a path with two. *)
Theorem project_root_of_shallow_script (env : Env) (top c1 c2 f : string) :
  all_sep top -> top <> "" ->
  no_sep c1 -> no_sep c2 -> no_sep f -> c1 <> "" -> c2 <> "" ->
  script_file env = top ++ f
  \/ script_file env = child (top ++ c1) f
  \/ script_file env = child (child (top ++ c1) c2) f ->
  get_project_root env = top
  /\ path_join (get_project_root env) "local-data/ssh/id_rsa"
     = top ++ "local-data/ssh/id_rsa".
Proof.
  intros Htop Hne H1 H2 Hf N1 N2 Hfile.
  assert (Hroot : get_project_root env = top).
  { unfold get_project_root.
    destruct Hfile as [-> | [-> | ->]].
    - rewrite dirname_under_top by assumption.
      now rewrite !(dirname_of_top top Htop).
    - rewrite dirname_child by (auto using endswith_sep_app).
      rewrite app_not_empty by assumption.
      rewrite dirname_under_top by assumption.
      now rewrite !(dirname_of_top top Htop).
    - rewrite dirname_child by (auto using endswith_sep_child).
      rewrite child_not_empty.
      rewrite dirname_child by (auto using endswith_sep_app).
      rewrite app_not_empty by assumption.
      rewrite dirname_under_top by assumption.
      now rewrite (dirname_of_top top Htop). }
  split; [exact Hroot|]. rewrite Hroot. unfold path_join.
  cbn [startswith]. change (Ascii.eqb "l" "/") with false. cbn [andb].
  rewrite (endswith_sep_top top Htop Hne). now rewrite orb_true_r.
Qed.

Lemma project_root_of_shallow_script_witness :
  (get_project_root {| script_file := "//multipass/inventory.py";
                       subprocess_run := Ok "out" |} = "//"
   /\ path_join (get_project_root {| script_file := "//multipass/inventory.py";
                                     subprocess_run := Ok "out" |})
        "local-data/ssh/id_rsa"
      = "//" ++ "local-data/ssh/id_rsa")
  /\ (get_project_root {| script_file := "/multipass/inventory.py";
                          subprocess_run := Ok "out" |} = "/"
      /\ path_join (get_project_root {| script_file := "/multipass/inventory.py";
                                        subprocess_run := Ok "out" |})
           "local-data/ssh/id_rsa"
         = "/" ++ "local-data/ssh/id_rsa").
Proof.
  split.
  - apply (project_root_of_shallow_script
             {| script_file := "//multipass/inventory.py"; subprocess_run := Ok "out" |}
             "//" "multipass" "inventories" "inventory.py");
      try reflexivity; try discriminate.
    right; left. reflexivity.
  - apply (project_root_of_shallow_script
             {| script_file := "/multipass/inventory.py"; subprocess_run := Ok "out" |}
             "/" "multipass" "inventories" "inventory.py");
      try reflexivity; try discriminate.
    right; left. reflexivity.
Defined.

(** ** A failed fetch and an absent VM *)

Lemma fetch_failed_fetches_nothing
    (json_loads : string -> result json) (env : Env) :
  fetch_failed json_loads env -> fetches json_loads env [].
Proof.
  intros H. exists (JObj [("list", JArr [])]). split; [|reflexivity].
  unfold get_multipass_vm_info.
  destruct H as [H | [H | [stdout [H Hdec]]]]; rewrite H; cbn [bind];
    [reflexivity | reflexivity | now rewrite Hdec].
Qed.

(** X14: a failed fetch cannot be told from a list without the target VM:
    under every combination of flags the program prints the same text in
    both cases, wherever the script is. *)
Theorem failed_fetch_prints_as_absent_vm
    (json_loads json_loads' : string -> result json) (env env' : Env)
    (vms : list json) (args : Namespace) :
  fetch_failed json_loads env ->
  fetches json_loads' env' vms -> Forall other_record vms ->
  main json_loads args env = main json_loads' args env'.
Proof.
  intros Hfail Hfetch Hnone.
  assert (H : get_inventory json_loads env = Ok base_inventory).
  { apply (get_inventory_no_target json_loads env []); [|reflexivity].
    now apply fetch_failed_fetches_nothing. }
  assert (H' : get_inventory json_loads' env' = Ok base_inventory).
  { apply (get_inventory_no_target json_loads' env' vms Hfetch).
    now apply find_target_vm_none. }
  rewrite (main_of_inventory json_loads env args _ H).
  now rewrite (main_of_inventory json_loads' env' args _ H').
Qed.

Lemma failed_fetch_prints_as_absent_vm_witness :
  main (decode_as "{}" (JObj [])) (host_mode "jterrazz-infra")
    (env_raising FileNotFoundError)
  = main (decode_as "out" (listing [vm_record "primary" "Running" ["192.168.64.2"]]))
      (host_mode "jterrazz-infra") (env_printing "out").
Proof.
  apply (failed_fetch_prints_as_absent_vm _ _ _ _
           [vm_record "primary" "Running" ["192.168.64.2"]]).
  - left. reflexivity.
  - apply fetches_decoded.
  - apply Forall_cons; [now apply other_record_by_name | apply Forall_nil].
Defined.

(** ** The printed text of a resolved host *)

Lemma string_app_assoc (a b c : string) : (a ++ b) ++ c = a ++ (b ++ c).
Proof. induction a as [|ch a IH]; simpl; [reflexivity | now rewrite IH]. Qed.

Lemma escape_plain (c : ascii) : plain_char c -> escape_char c = String c "".
Proof.
  unfold plain_char, escape_char. intros (Hlo & Hhi & Hq & Hb).
  repeat match goal with
  | |- context [Nat.eqb ?a ?b] => destruct (Nat.eqb_spec a b); [lia|]
  end.
  destruct (Nat.ltb_spec (nat_of_ascii c) 32); [lia|].
  destruct (Nat.ltb_spec 126 (nat_of_ascii c)); [lia|]. reflexivity.
Qed.

Lemma encode_plain (s : string) : plain s -> encode_str s = quoted s.
Proof.
  unfold plain, encode_str, quoted. intros H. f_equal. f_equal.
  induction s as [|c s IH]; [reflexivity|].
  cbn [list_ascii_of_string map] in *. inversion H as [|? ? Hc Hs]; subst.
  specialize (IH Hs). rewrite (escape_plain c Hc).
  destruct (list_ascii_of_string s) as [|c' l] eqn:E.
  - destruct s; [reflexivity | discriminate].
  - cbn [map String.concat] in *. now rewrite IH.
Qed.

Lemma plain_by_test (s : string) : is_plain s = true -> plain s.
Proof.
  unfold is_plain, plain. rewrite forallb_forall, Forall_forall.
  intros H c Hc. specialize (H c Hc).
  rewrite !andb_true_iff, !negb_true_iff, !Nat.leb_le, !Nat.eqb_neq in H.
  unfold plain_char. tauto.
Qed.

Ltac flatten_text :=
  unfold bracketed, lines, quoted; cbn;
  repeat (rewrite string_app_assoc; cbn [append]);
  reflexivity.

Lemma host_text_printed (ip path : string) :
  plain ip -> plain path ->
  json_dumps (host_variables (JStr ip) path) ++ String newline ""
  = host_text ip path.
Proof.
  intros Hip Hpath.
  unfold json_dumps, host_variables, host_text. cbn [dumps_at map fst snd].
  rewrite (encode_plain ip Hip), (encode_plain path Hpath).
  flatten_text.
Qed.

Lemma inventory_text_printed (ip path : string) :
  plain ip -> plain path ->
  json_dumps (populated_inventory (JStr ip) path) ++ String newline ""
  = inventory_text ip path.
Proof.
  intros Hip Hpath.
  unfold json_dumps, populated_inventory, host_variables, inventory_text.
  cbn [dumps_at map fst snd].
  rewrite (encode_plain ip Hip), (encode_plain path Hpath).
  flatten_text.
Qed.

(** X15: the text written for a resolved host.  When the address and the
    key path consist of printable ASCII characters other than the double
    quote and the backslash, [--list] prints the document and
    [--host jterrazz-infra] the four variables, in the order of the source,
    two spaces deeper per level, with the address and the path between
    double quotes as they are. *)
Theorem resolved_host_is_printed
    (json_loads : string -> result json) (env : Env) (ip : string) :
  get_inventory json_loads env
  = Ok (populated_inventory (JStr ip) (ssh_key_path env)) ->
  plain ip -> plain (ssh_key_path env) ->
  main json_loads list_mode env = Ok (inventory_text ip (ssh_key_path env))
  /\ main json_loads no_flags env = Ok (inventory_text ip (ssh_key_path env))
  /\ main json_loads (host_mode "jterrazz-infra") env
     = Ok (host_text ip (ssh_key_path env)).
Proof.
  intros Hdoc Hip Hpath. split; [|split].
  - rewrite (main_list json_loads env None _ Hdoc : main _ list_mode _ = _).
    unfold stdout_of. now rewrite inventory_text_printed.
  - rewrite (main_no_flags json_loads env _ Hdoc).
    unfold stdout_of. now rewrite inventory_text_printed.
  - rewrite (main_host json_loads env "jterrazz-infra" _ Hdoc) by discriminate.
    unfold stdout_of, host_submapping. rewrite at3_populated.
    cbn [target_name String.eqb Ascii.eqb Bool.eqb].
    change (String.eqb target_name "jterrazz-infra") with true. cbv iota.
    now rewrite host_text_printed.
Qed.

Lemma resolved_host_is_printed_witness :
  main (decode_as "out" (listing [vm_record target_name "Running" spec_addresses]))
    list_mode (env_printing "out")
  = Ok (inventory_text "192.168.64.10" (ssh_key_path (env_printing "out")))
  /\ main (decode_as "out" (listing [vm_record target_name "Running" spec_addresses]))
       no_flags (env_printing "out")
     = Ok (inventory_text "192.168.64.10" (ssh_key_path (env_printing "out")))
  /\ main (decode_as "out" (listing [vm_record target_name "Running" spec_addresses]))
       (host_mode "jterrazz-infra") (env_printing "out")
     = Ok (host_text "192.168.64.10" (ssh_key_path (env_printing "out"))).
Proof.
  apply (resolved_host_is_printed
           (decode_as "out" (listing [vm_record target_name "Running" spec_addresses]))
           (env_printing "out") "192.168.64.10").
  - reflexivity.
  - apply plain_by_test. reflexivity.
  - apply plain_by_test. reflexivity.
Defined.

Lemma Ok_inj {A : Type} (a b : A) : Ok a = Ok b -> a = b.
Proof. now intros [= ->]. Qed.

(** X16: [--host jterrazz-infra] tells whether the VM was resolved: it
    prints the empty mapping exactly when the document is the empty
    inventory. *)
Theorem host_query_tells_resolution
    (json_loads : string -> result json) (env : Env) (doc : json) :
  get_inventory json_loads env = Ok doc ->
  (main json_loads (host_mode "jterrazz-infra") env = Ok ("{}" ++ String newline "")
   <-> doc = base_inventory).
Proof.
  intros Hdoc.
  rewrite (main_host json_loads env "jterrazz-infra" doc Hdoc) by discriminate.
  unfold stdout_of, host_submapping.
  destruct (get_inventory_cases json_loads env doc Hdoc) as [-> | (ip & _ & _ & ->)].
  - split; reflexivity.
  - rewrite at3_populated.
    change (String.eqb target_name "jterrazz-infra") with true. cbv iota.
    split; [|discriminate].
    intros H. apply Ok_inj in H.
    apply (f_equal (String.get 1)) in H. lazy in H. discriminate.
Qed.

Lemma host_query_tells_resolution_witness :
  main (decode_as "out" (listing [vm_record target_name "Stopped" []]))
    (host_mode "jterrazz-infra") (env_printing "out")
  = Ok ("{}" ++ String newline "")
  <-> base_inventory = base_inventory.
Proof.
  apply (host_query_tells_resolution
           (decode_as "out" (listing [vm_record target_name "Stopped" []]))
           (env_printing "out") base_inventory).
  reflexivity.
Defined.
